(** * serverlesspack: the imports resolver

    A shallow embedding of [imports_resolver.py]: the path helpers
    ([get_distribution_name_of_package], [_remove_junk_start_of_path],
    [_path_to_module_path]) as pure functions over strings, and the
    [Resolver] methods as computations in a state-and-exception monad over
    the fields of the resolver object.  Everything the module obtains from
    its host (the file system, the interpreter's import machinery, the
    table of installed distributions) is read from a [World] record; the
    path libraries ([pathlib], [os.path]) are an interface with a POSIX
    and a Windows instance.  [from_code] and [write_code_file], which
    write a source file and construct a resolver on it, are not part of
    the embedding. *)

From Stdlib Require Import Ascii String.
From stdpp Require Import gmap strings list.

Local Open Scope stdpp_scope.

#[local] Set Warnings "-clear-no-such-hyp".

(** ** Python string operations *)

Module Str.

(** [s.split(c)] for a one-character separator. *)
Fixpoint split (c : ascii) (s : string) : list string :=
  match s with
  | EmptyString => [EmptyString]
  | String a s' =>
      if Ascii.eqb a c then EmptyString :: split c s'
      else match split c s' with
           | [] => [String a EmptyString]
           | x :: xs => String a x :: xs
           end
  end.

(** [sep.join(parts)] *)
Definition join (sep : string) (parts : list string) : string :=
  String.concat sep parts.

(** [s.replace(a, b)] for one-character [a] and [b]. *)
Fixpoint replace (a b : ascii) (s : string) : string :=
  match s with
  | EmptyString => EmptyString
  | String c s' => String (if Ascii.eqb c a then b else c) (replace a b s')
  end.

(** [s.startswith(p)] *)
Definition startswith (p s : string) : bool := String.prefix p s.

(** [s.endswith(p)]: [p] is [s] or ends the tail of [s]. *)
Fixpoint endswith (p s : string) : bool :=
  String.eqb p s
  || match s with
     | EmptyString => false
     | String _ s' => endswith p s'
     end.

(** [needle in hay] *)
Fixpoint contains (needle hay : string) : bool :=
  String.prefix needle hay
  || match hay with
     | EmptyString => false
     | String _ hay' => contains needle hay'
     end.

(** [s.lstrip(c)] *)
Fixpoint lstrip (c : ascii) (s : string) : string :=
  match s with
  | String a s' => if Ascii.eqb a c then lstrip c s' else s
  | EmptyString => EmptyString
  end.

(** [s.rstrip(c)] *)
Fixpoint rstrip (c : ascii) (s : string) : string :=
  match s with
  | EmptyString => EmptyString
  | String a s' =>
      match rstrip c s' with
      | EmptyString => if Ascii.eqb a c then EmptyString else String a EmptyString
      | r => String a r
      end
  end.

(** [s.rfind(c)]: the index of the last occurrence of [c], if any. *)
Fixpoint rfind (c : ascii) (s : string) : option nat :=
  match s with
  | EmptyString => None
  | String a s' =>
      match rfind c s' with
      | Some i => Some (S i)
      | None => if Ascii.eqb a c then Some 0 else None
      end
  end.

(** [s[:n]] and [s[n:]] *)
Definition take (n : nat) (s : string) : string := String.substring 0 n s.
Definition drop (n : nat) (s : string) : string :=
  String.substring n (String.length s - n) s.

Definition is_empty (s : string) : bool := String.eqb s EmptyString.

Definition lower_ascii (c : ascii) : ascii :=
  let n := nat_of_ascii c in
  if (65 <=? n) && (n <=? 90) then ascii_of_nat (n + 32) else c.

(** [s.lower()] on ASCII letters *)
Fixpoint lower (s : string) : string :=
  match s with
  | EmptyString => EmptyString
  | String c s' => String (lower_ascii c) (lower s')
  end.

End Str.

(** ** The host's path libraries

    [pathlib] and [os.path] follow the flavour of the host the resolver
    runs on.  The interface lists what the flavours implement differently;
    the [pathlib] properties the resolver reads are derived from
    [parse_parts] below, as [PurePath] derives them. *)

Class PathLib := {
  (** [os.sep] *)
  sep : ascii;
  (** [flavour.parse_parts((p,))]: drive, root and the list of parts, the
      anchor [drive + root] being the first part when it is not empty. *)
  parse_parts : string -> string * string * list string;
  (** whether [Path(p).parents] carries the private list [_parts] (the
      parts of [p]); it does up to CPython 3.11. *)
  parents_has_parts : bool;
  (** [os.path.join(a, b)] *)
  os_path_join : string -> string -> string;
  (** [os.path.dirname(p)] *)
  os_path_dirname : string -> string;
  (** [os.path.abspath(p)] when the working directory is [cwd] *)
  os_path_abspath : forall (cwd p : string), string;
  (** [os.path.relpath(p, start)] when the working directory is [cwd];
      [None] when it raises [ValueError]. *)
  os_path_relpath : forall (cwd p start : string), option string
}.

Section PurePath.
Context `{PathLib}.

(** [Path(p).parts] *)
Definition path_parts (p : string) : list string := (parse_parts p).2.

Definition path_anchored (p : string) : bool :=
  let '(drv, root, _) := parse_parts p in
  negb (Str.is_empty drv) || negb (Str.is_empty root).

(** [getattr(Path(p).parents, '_parts', None)] *)
Definition path_parents_parts (p : string) : option (list string) :=
  if parents_has_parts then Some (path_parts p) else None.

(** [PurePath._format_parsed_parts] *)
Definition format_parsed_parts (anchored : bool) (parts : list string) : string :=
  if anchored
  then match parts with
       | anchor :: rest => anchor +:+ Str.join (String sep EmptyString) rest
       | [] => EmptyString
       end
  else Str.join (String sep EmptyString) parts.

(** [str(Path(p))] *)
Definition path_str (p : string) : string :=
  let s := format_parsed_parts (path_anchored p) (path_parts p) in
  if Str.is_empty s then "." else s.

(** [Path(p).name] *)
Definition path_name (p : string) : string :=
  let parts := path_parts p in
  if Nat.eqb (length parts) (if path_anchored p then 1 else 0)
  then EmptyString
  else List.last parts EmptyString.

(** The suffix of a file name: from its last dot on, when that dot is
    neither the first nor the last character. *)
Definition name_suffix (name : string) : string :=
  match Str.rfind "."%char name with
  | Some i =>
      if (0 <? i) && (i <? String.length name - 1)
      then Str.drop i name else EmptyString
  | None => EmptyString
  end.

(** [Path(p).suffix] *)
Definition path_suffix (p : string) : string := name_suffix (path_name p).

(** [str(Path(p).with_suffix(suffix))], [None] for [ValueError]. *)
Definition path_with_suffix (p suffix : string) : option string :=
  if Str.contains (String sep EmptyString) suffix then None
  else if (negb (Str.is_empty suffix) && negb (Str.startswith "." suffix))
          || String.eqb suffix "."
  then None
  else
    let name := path_name p in
    if Str.is_empty name then None
    else
      let old_suffix := path_suffix p in
      let name' :=
        if Str.is_empty old_suffix then name +:+ suffix
        else Str.take (String.length name - String.length old_suffix) name +:+ suffix in
      let parts := path_parts p in
      let s := format_parsed_parts (path_anchored p)
                 (take (length parts - 1) parts ++ [name']) in
      Some (if Str.is_empty s then "." else s).

End PurePath.

(** ** The POSIX flavour ([_PosixFlavour], [posixpath]) *)

Module Posix.

Definition sep : ascii := "/"%char.

(** [_PosixFlavour.splitroot]: exactly two leading slashes are kept as a
    root of their own. *)
Definition splitroot (part : string) : string * string * string :=
  if Str.startswith "/" part then
    let stripped_part := Str.lstrip sep part in
    if Nat.eqb (String.length part - String.length stripped_part) 2
    then (EmptyString, "//", stripped_part)
    else (EmptyString, "/", stripped_part)
  else (EmptyString, EmptyString, part).

(** [parse_parts] of one argument: the components of the relative part
    that are neither empty nor ["."], behind the anchor. *)
Definition parse_parts (p : string) : string * string * list string :=
  if Str.is_empty p then (EmptyString, EmptyString, [])
  else
    let '(drv, root, rel) := splitroot p in
    let parsed :=
      List.filter (fun x => negb (Str.is_empty x) && negb (String.eqb x "."))
                  (Str.split sep rel) in
    if negb (Str.is_empty drv) || negb (Str.is_empty root)
    then (drv, root, (drv +:+ root) :: parsed)
    else (drv, root, parsed).

(** [posixpath.join(a, b)] *)
Definition join (a b : string) : string :=
  if Str.startswith "/" b then b
  else if Str.is_empty a || Str.endswith "/" a then a +:+ b
  else a +:+ "/" +:+ b.

(** [posixpath.dirname] *)
Definition dirname (p : string) : string :=
  let i := match Str.rfind sep p with Some i => S i | None => 0 end in
  let head := Str.take i p in
  if negb (Str.is_empty head) && negb (Str.is_empty (Str.lstrip sep head))
  then Str.rstrip sep head
  else head.

(** The loop of [posixpath.normpath] over the components. *)
Fixpoint normpath_comps (initial_slashes : nat) (comps new_comps : list string)
  : list string :=
  match comps with
  | [] => new_comps
  | comp :: comps' =>
      if Str.is_empty comp || String.eqb comp "."
      then normpath_comps initial_slashes comps' new_comps
      else if negb (String.eqb comp "..")
              || (Nat.eqb initial_slashes 0 && Nat.eqb (length new_comps) 0)
              || (negb (Nat.eqb (length new_comps) 0)
                  && String.eqb (List.last new_comps EmptyString) "..")
      then normpath_comps initial_slashes comps' (new_comps ++ [comp])
      else normpath_comps initial_slashes comps'
             (take (length new_comps - 1) new_comps)
  end.

(** [posixpath.normpath] *)
Definition normpath (path : string) : string :=
  if Str.is_empty path then "."
  else
    let initial_slashes :=
      if Str.startswith "/" path
      then if Str.startswith "//" path && negb (Str.startswith "///" path)
           then 2 else 1
      else 0 in
    let comps := normpath_comps initial_slashes (Str.split sep path) [] in
    let path' := Str.join "/" comps in
    let path'' :=
      match initial_slashes with
      | 0 => path'
      | 1 => "/" +:+ path'
      | _ => "//" +:+ path'
      end in
    if Str.is_empty path'' then "." else path''.

(** [posixpath.abspath] *)
Definition abspath (cwd path : string) : string :=
  normpath (if Str.startswith "/" path then path else join cwd path).

Fixpoint commonprefix_length (l1 l2 : list string) : nat :=
  match l1, l2 with
  | x :: l1', y :: l2' =>
      if String.eqb x y then S (commonprefix_length l1' l2') else 0
  | _, _ => 0
  end.

(** [posixpath.relpath(path, start)] *)
Definition relpath (cwd path start : string) : option string :=
  if Str.is_empty path then None
  else
    let nonempty := List.filter (fun x => negb (Str.is_empty x)) in
    let start_list := nonempty (Str.split sep (abspath cwd start)) in
    let path_list := nonempty (Str.split sep (abspath cwd path)) in
    let i := commonprefix_length start_list path_list in
    let rel_list :=
      List.repeat ".." (length start_list - i) ++ drop i path_list in
    match rel_list with
    | [] => Some "."
    | a :: rest => Some (List.fold_left join rest a)
    end.

End Posix.

#[export] Instance posix_pathlib : PathLib := {|
  sep := Posix.sep;
  parse_parts := Posix.parse_parts;
  parents_has_parts := true;
  os_path_join := Posix.join;
  os_path_dirname := Posix.dirname;
  os_path_abspath := Posix.abspath;
  os_path_relpath := Posix.relpath
|}.

(** ** The Windows flavour ([_WindowsFlavour], [ntpath])

    Drive-letter paths with either separator.  UNC shares and the device
    and extended-length prefixes are not part of this instance: a path
    that starts with two separators is read as a rooted path, and
    [abspath] is the portable fallback of [ntpath] (join with the working
    directory, then [normpath]). *)

Module Nt.

Definition sep : ascii := "\"%char.
Definition altsep : ascii := "/"%char.

Definition is_sep (c : ascii) : bool := Ascii.eqb c sep || Ascii.eqb c altsep.

(** [normcase] compares lower-cased strings. *)
Definition lower := Str.lower.

Definition is_drive_letter (c : ascii) : bool :=
  let n := nat_of_ascii (Str.lower_ascii c) in (97 <=? n) && (n <=? 122).

(** [ntpath.splitdrive] for drive-letter paths *)
Definition splitdrive (p : string) : string * string :=
  match p with
  | String d (String ":" rest) => (String d (String ":" EmptyString), rest)
  | _ => (EmptyString, p)
  end.

Definition starts_with_sep (p : string) : bool :=
  match p with
  | String c _ => is_sep c
  | EmptyString => false
  end.

Definition ends_with_sep (p : string) : bool := starts_with_sep (String.rev p).

(** [_WindowsFlavour.splitroot], after the alternative separator has
    been replaced *)
Definition splitroot (part : string) : string * string * string :=
  let '(drv, part') :=
    match part with
    | String d (String ":" rest) =>
        if is_drive_letter d
        then (String d (String ":" EmptyString), rest)
        else (EmptyString, part)
    | _ => (EmptyString, part)
    end in
  if Str.startswith "\" part'
  then (drv, "\", Str.lstrip sep part')
  else (drv, EmptyString, part').

Definition parse_parts (p : string) : string * string * list string :=
  if Str.is_empty p then (EmptyString, EmptyString, [])
  else
    let '(drv, root, rel) := splitroot (Str.replace altsep sep p) in
    let parsed :=
      List.filter (fun x => negb (Str.is_empty x) && negb (String.eqb x "."))
                  (Str.split sep rel) in
    if negb (Str.is_empty drv) || negb (Str.is_empty root)
    then (drv, root, (drv +:+ root) :: parsed)
    else (drv, root, parsed).

(** [ntpath.join(path, p)] *)
Definition join (path p : string) : string :=
  let '(result_drive, result_path) := splitdrive path in
  let '(p_drive, p_path) := splitdrive p in
  if starts_with_sep p_path then
    (if negb (Str.is_empty p_drive) || Str.is_empty result_drive
     then p_drive else result_drive) +:+ p_path
  else if negb (Str.is_empty p_drive)
          && negb (String.eqb p_drive result_drive)
          && negb (String.eqb (lower p_drive) (lower result_drive))
  then p_drive +:+ p_path
  else
    let result_drive' :=
      if negb (Str.is_empty p_drive) && negb (String.eqb p_drive result_drive)
      then p_drive else result_drive in
    let result_path' :=
      if negb (Str.is_empty result_path) && negb (ends_with_sep result_path)
      then result_path +:+ "\" else result_path in
    result_drive' +:+ result_path' +:+ p_path.

Fixpoint rstrip_seps_rev (r : string) : string :=
  match r with
  | String c r' => if is_sep c then rstrip_seps_rev r' else r
  | EmptyString => EmptyString
  end.

(** The tail of [p] after its last separator, reversed input. *)
Fixpoint drop_tail_rev (r : string) : string :=
  match r with
  | String c r' => if is_sep c then r else drop_tail_rev r'
  | EmptyString => EmptyString
  end.

(** [ntpath.dirname]: the head of [ntpath.split] *)
Definition dirname (p : string) : string :=
  let '(d, p') := splitdrive p in
  let head := String.rev (drop_tail_rev (String.rev p')) in
  let stripped := String.rev (rstrip_seps_rev (String.rev head)) in
  d +:+ (if Str.is_empty stripped then head else stripped).

(** The loop of [ntpath.normpath]: [done] holds the components before
    index [i], last first. *)
Fixpoint normpath_comps (rooted : bool) (comps done : list string) : list string :=
  match comps with
  | [] => List.rev done
  | comp :: comps' =>
      if Str.is_empty comp || String.eqb comp "."
      then normpath_comps rooted comps' done
      else if String.eqb comp ".." then
        match done with
        | prev :: done' =>
            if String.eqb prev ".."
            then normpath_comps rooted comps' (comp :: done)
            else normpath_comps rooted comps' done'
        | [] =>
            if rooted then normpath_comps rooted comps' done
            else normpath_comps rooted comps' (comp :: done)
        end
      else normpath_comps rooted comps' (comp :: done)
  end.

(** [ntpath.normpath] *)
Definition normpath (path : string) : string :=
  let '(drive, rest) := splitdrive (Str.replace altsep sep path) in
  let rooted := Str.startswith "\" rest in
  let prefix := if rooted then drive +:+ "\" else drive in
  let comps := normpath_comps rooted (Str.split sep (Str.lstrip sep rest)) [] in
  match comps with
  | [] => if Str.is_empty prefix then "." else prefix
  | _ => prefix +:+ Str.join "\" comps
  end.

(** [ntpath.isabs] for drive-letter paths *)
Definition isabs (p : string) : bool := starts_with_sep (splitdrive p).2.

(** [ntpath.abspath] *)
Definition abspath (cwd path : string) : string :=
  normpath (if isabs path then path else join cwd path).

Fixpoint common_length (l1 l2 : list string) : nat :=
  match l1, l2 with
  | x :: l1', y :: l2' =>
      if String.eqb (lower x) (lower y) then S (common_length l1' l2') else 0
  | _, _ => 0
  end.

(** [ntpath.relpath(path, start)] *)
Definition relpath (cwd path start : string) : option string :=
  if Str.is_empty path then None
  else
    let nonempty := List.filter (fun x => negb (Str.is_empty x)) in
    let '(start_drive, start_rest) := splitdrive (abspath cwd (normpath start)) in
    let '(path_drive, path_rest) := splitdrive (abspath cwd (normpath path)) in
    if negb (String.eqb (lower start_drive) (lower path_drive)) then None
    else
      let start_list := nonempty (Str.split sep start_rest) in
      let path_list := nonempty (Str.split sep path_rest) in
      let i := common_length start_list path_list in
      let rel_list :=
        List.repeat ".." (length start_list - i) ++ drop i path_list in
      match rel_list with
      | [] => Some "."
      | a :: rest => Some (List.fold_left join rest a)
      end.

End Nt.

Definition nt_pathlib : PathLib := {|
  sep := Nt.sep;
  parse_parts := Nt.parse_parts;
  parents_has_parts := true;
  os_path_join := Nt.join;
  os_path_dirname := Nt.dirname;
  os_path_abspath := Nt.abspath;
  os_path_relpath := Nt.relpath
|}.

(** ** Module-level functions *)

Section PathHelpers.
Context `{PathLib}.

(** The [for i, parent in enumerate(parents_parts)] loop of
    [get_distribution_name_of_package], from index [i] on. *)
Fixpoint scan_parents_parts (parents_parts : list string) (i : nat)
    (rest : list string) : option string :=
  match rest with
  | [] => None
  | parent :: rest' =>
      if String.eqb parent "site-packages"
      then if i + 1 <? length parents_parts - 1
           then parents_parts !! (i + 1)
           else None
      else scan_parents_parts parents_parts (i + 1) rest'
  end.

Definition get_distribution_name_of_package (package_filepath : string)
  : option string :=
  match path_parents_parts package_filepath with
  | Some parents_parts => scan_parents_parts parents_parts 0 parents_parts
  | None => None
  end.

(** [Resolver._remove_junk_start_of_path] *)
Definition _remove_junk_start_of_path (path : string) : list string :=
  let parts := path_parts path in
  match parts with
  | first :: rest =>
      if String.eqb first "." || String.eqb first ".." then rest else parts
  | [] => parts
  end.

(** The loop of [_path_to_module_path] over the base path parts, from
    index [i] on; it carries [cleaned_module_name_parts] and
    [matching_paths]. *)
Fixpoint consume_base_path_parts (source_module_name_parts : list string)
    (i : nat) (base_path_parts : list string)
    (cleaned_module_name_parts : list string) (matching_paths : bool)
  : list string :=
  match base_path_parts with
  | [] => cleaned_module_name_parts
  | base_path_part :: rest =>
      if i <? length source_module_name_parts then
        if matching_paths then
          if bool_decide (source_module_name_parts !! i = Some base_path_part)
          then consume_base_path_parts source_module_name_parts (i + 1) rest
                 (drop (i + 1) source_module_name_parts) matching_paths
          else consume_base_path_parts source_module_name_parts (i + 1) rest
                 cleaned_module_name_parts false
        else consume_base_path_parts source_module_name_parts (i + 1) rest
               cleaned_module_name_parts matching_paths
      else consume_base_path_parts source_module_name_parts (i + 1) rest
             cleaned_module_name_parts matching_paths
  end.

(** [Resolver._path_to_module_path] *)
Definition _path_to_module_path (base_path module_name : string)
  : option string :=
  match _remove_junk_start_of_path base_path with
  | module_package :: cleaned_base_path_parts =>
      let source_module_name_parts :=
        drop 1 (path_parts (Str.replace "." "/" module_name)) in
      Some (Str.join "."
              (consume_base_path_parts source_module_name_parts 0
                 cleaned_base_path_parts source_module_name_parts true))
  | [] => None
  end.

End PathHelpers.

(** ** The host

    What the resolver reads from its environment.  Printing is not
    modelled: [_verbose_print] and the [print] calls of the constructor
    leave the resolver untouched. *)

(** A module object, as far as the resolver looks at it:
    [getattr(module, '__file__', None)]. *)
Record ModuleType := { module_file : option string }.

Inductive Exn :=
| TypeError
| ValueError
| KeyError
| OSNotSupported (os : string)
| FilepathDoesNotExist (filepath : string)
| HostError.

(** [importlib.import_module(name)] *)
Inductive ImportOutcome :=
| Imported (m : ModuleType)
| ModuleNotFoundError
| ImportRaised (e : Exn).

(** [spec_from_file_location(name, location)] followed by
    [module_from_spec], when the specification is not [None]. *)
Inductive FileImportOutcome :=
| FileModule (m : option ModuleType)
| FileModuleNotFoundError
| FileImportRaised (e : Exn).

(** A top-level statement of a parsed file: an import-bearing statement
    with the names it imports, a statement of a kind that has a handler
    and imports nothing, or a statement of a kind without handler. *)
Inductive Node :=
| ImportNode (imported_names : list string)
| PlainNode
| UnhandledNode.

(** A directory as [os.walk] reads it: its name, its sub-directories and
    its other entries, in the order of [scandir]. *)
#[warnings="-register-all"]
Inductive FolderTree :=
| Folder (name : string) (dirs : list FolderTree) (filenames : list string).

Definition folder_name (t : FolderTree) : string :=
  match t with Folder name _ _ => name end.

Record World := {
  (** [platform.system()] *)
  platform_system : string;
  (** [str(Path(os.__file__).parent.parent)] *)
  python_base_libs_folder_path : string;
  (** [os.getcwd()] *)
  getcwd : string;
  (** [sys.argv[0]] *)
  argv0 : string;
  (** [os.path.exists], [Path.exists] *)
  fs_exists : string -> bool;
  (** [Path.is_file] *)
  fs_is_file : string -> bool;
  import_module : string -> ImportOutcome;
  module_from_file_location : option string -> string -> FileImportOutcome;
  (** [importlib_metadata.packages_distributions()] *)
  installed_packages_distributions : gmap string (list string);
  (** [DistributionPath.get_distribution(name)]: the declared
      requirements of the distribution, if it is found. *)
  get_distribution : string -> option (list string);
  (** reading and parsing a source file, [None] when that raises *)
  file_nodes : string -> option (list Node);
  (** [os.walk]: the tree under a folder, [None] when it cannot be
      scanned (nothing is yielded then). *)
  folder_tree : string -> option FolderTree
}.

(** ** The resolver object *)

(** An entry of the walk log. *)
Inductive WalkEvent :=
| Walked (filepath : string)
| DistributionEntry (distribution_name filepath : string).

Record Resolver := {
  root_filepath : string;
  verbose : bool;
  system_os : string;
  target_os : string;
  packages_distributions : gmap string (list string);
  included_packages_names : gset string;
  included_files_absolute_paths : gset string;
  (** Ghost field, not in the source: the files [process_file] went on
      to read or add after its existence check, and the entry files the
      distribution branch of [add_package_by_name] handed to it, oldest
      first. *)
  walk_log : list WalkEvent
}.

Definition WINDOWS_KEY : string := "windows".
Definition LINUX_KEY : string := "linux".
Definition TARGETS_OS : list string := [WINDOWS_KEY; LINUX_KEY].

(** The dictionary [OS_TO_COMPILED_EXTENSIONS], as its lookup. *)
Definition OS_TO_COMPILED_EXTENSIONS (os : string) : option string :=
  if String.eqb os WINDOWS_KEY then Some "pyd"
  else if String.eqb os LINUX_KEY then Some "so"
  else None.

(** [make_no_os_matching_file_warning_message]; [None] when a lookup in
    the dictionary raises [KeyError]. *)
Definition make_no_os_matching_file_warning_message
    (system_os target_os source_filepath : string) : option string :=
  source_extension ← OS_TO_COMPILED_EXTENSIONS system_os;
  target_extension ← OS_TO_COMPILED_EXTENSIONS target_os;
  Some ("WARNING - No matching ." +:+ source_extension
        +:+ " file found to replace a ." +:+ target_extension
        +:+ " file at " +:+ source_filepath +:+ ". "
        +:+ "Make sure that you both have a compiled ." +:+ source_extension
        +:+ " and ." +:+ target_extension
        +:+ " file with the same names and paths. "
        +:+ "Otherwise, try to compile your application on a " +:+ target_os
        +:+ " computer or virtual machine.").

Definition set_included_packages_names (names : gset string) (self : Resolver)
  : Resolver :=
  {| root_filepath := root_filepath self; verbose := verbose self;
     system_os := system_os self; target_os := target_os self;
     packages_distributions := packages_distributions self;
     included_packages_names := names;
     included_files_absolute_paths := included_files_absolute_paths self;
     walk_log := walk_log self |}.

Definition set_included_files (files : gset string) (self : Resolver) : Resolver :=
  {| root_filepath := root_filepath self; verbose := verbose self;
     system_os := system_os self; target_os := target_os self;
     packages_distributions := packages_distributions self;
     included_packages_names := included_packages_names self;
     included_files_absolute_paths := files;
     walk_log := walk_log self |}.

Definition set_walk_log (log : list WalkEvent) (self : Resolver) : Resolver :=
  {| root_filepath := root_filepath self; verbose := verbose self;
     system_os := system_os self; target_os := target_os self;
     packages_distributions := packages_distributions self;
     included_packages_names := included_packages_names self;
     included_files_absolute_paths := included_files_absolute_paths self;
     walk_log := log |}.

(** ** Computations on the resolver

    A method either returns, raises, or stops because the recursion
    budget is spent; the resolver it has mutated so far is kept in all
    three cases, as the Python object is. *)

Inductive outcome (A : Type) :=
| Returned (a : A)
| Raised (e : Exn)
| OutOfFuel.
Arguments Returned {A} a.
Arguments Raised {A} e.
Arguments OutOfFuel {A}.

Definition M (A : Type) : Type := Resolver -> outcome A * Resolver.

#[export] Instance M_ret : MRet M := fun A a self => (Returned a, self).

#[export] Instance M_bind : MBind M := fun A B f m self =>
  match m self with
  | (Returned a, self') => f a self'
  | (Raised e, self') => (Raised e, self')
  | (OutOfFuel, self') => (OutOfFuel, self')
  end.

Definition raise {A} (e : Exn) : M A := fun self => (Raised e, self).
Definition out_of_fuel {A} : M A := fun self => (OutOfFuel, self).
Definition get_self : M Resolver := fun self => (Returned self, self).
Definition modify (f : Resolver -> Resolver) : M unit :=
  fun self => (Returned tt, f self).

(** [for x in l: body(x)] *)
Fixpoint for_each {A} (l : list A) (body : A -> M unit) : M unit :=
  match l with
  | [] => mret tt
  | x :: l' => body x ≫= λ _, for_each l' body
  end.

(** [[f(x) for x in l]] *)
Fixpoint map_each {A B} (l : list A) (f : A -> M B) : M (list B) :=
  match l with
  | [] => mret []
  | x :: l' => y ← f x; ys ← map_each l' f; mret (y :: ys)
  end.

(** [x not in container], which raises [TypeError] on [None]. *)
Definition not_in (x : string) (container : option (list string)) : M bool :=
  match container with
  | Some l => mret (bool_decide (x ∉ l))
  | None => raise TypeError
  end.

(** [path == s] for a [Path] object and a [str]: objects of different
    types, never equal. *)
Definition path_eq_str (path s : string) : bool := false.

(** [Resolver.__init__] *)
Definition __init__ (w : World) (root_filepath : string)
    (target_os : option string) (verbose : bool) : Exn + Resolver :=
  let system_os := Str.lower (platform_system w) in
  let target_os :=
    match target_os with
    | Some target_os => target_os
    | None => system_os
    end in
  if bool_decide (target_os ∈ TARGETS_OS) then
    inr {| root_filepath := root_filepath;
           verbose := verbose;
           system_os := system_os;
           target_os := target_os;
           packages_distributions := installed_packages_distributions w;
           included_packages_names := ∅;
           included_files_absolute_paths := {[ root_filepath ]};
           walk_log := [] |}
  else inl (OSNotSupported target_os).

(** ** The methods of [Resolver] *)

Section Methods.
Context `{PathLib} (w : World).

(** [Resolver._import_module] *)
Definition _import_module (module_name filepath : string)
  : M (option ModuleType) :=
  match import_module w module_name with
  | Imported m => mret (Some m)
  | ImportRaised e => raise e
  | ModuleNotFoundError =>
      match os_path_relpath (getcwd w) filepath (argv0 w) with
      | None => raise ValueError
      | Some filepath_relative_to_current_module =>
          let module_path :=
            _path_to_module_path filepath_relative_to_current_module
              module_name in
          match module_from_file_location w module_path
                  filepath_relative_to_current_module with
          | FileModule m => mret m
          | FileModuleNotFoundError => mret None
          | FileImportRaised e => raise e
          end
      end
  end.

(** [Resolver.add_python_file] *)
Definition add_python_file (filepath : string) : M unit :=
  let expected_init_filepath :=
    os_path_join (os_path_dirname filepath) "__init__.py" in
  modify (λ self,
    if bool_decide (expected_init_filepath ∉ included_files_absolute_paths self)
    then if fs_exists w expected_init_filepath
         then set_included_files
                ({[ expected_init_filepath ]} ∪ included_files_absolute_paths self)
                self
         else self
    else self) ≫= λ _,
  modify (λ self,
    if bool_decide (filepath ∉ included_files_absolute_paths self)
    then set_included_files ({[ filepath ]} ∪ included_files_absolute_paths self) self
    else self).

(** [os.path.abspath] of [os.path.join] applied to the unpacked
    parts; [join] needs one argument at least. *)
Definition abspath_of_parts (parts : list string) : M string :=
  match parts with
  | [] => raise TypeError
  | a :: rest =>
      mret (os_path_abspath (getcwd w) (List.fold_left os_path_join rest a))
  end.

(** What the compiled-extension block of [add_package_by_name] leaves
    behind: the file path to go on with, or the early [return] after the
    warning message has been built and handed to [_verbose_print]. *)
Inductive Adapted :=
| GoOn (imported_package_module_filepath : string)
| NoMatchingFile.

Definition adapt_compiled_extension (self : Resolver)
    (imported_package_module_filepath : string) : M Adapted :=
  let path_imported_package_module_filepath := imported_package_module_filepath in
  if String.eqb (system_os self) "windows"
     && String.eqb (path_suffix path_imported_package_module_filepath) ".pyd"
  then
    if String.eqb (target_os self) "linux" then
      match path_with_suffix path_imported_package_module_filepath ".so" with
      | None => raise ValueError
      | Some path_imported_package_module_filepath =>
          if negb (fs_is_file w path_imported_package_module_filepath)
          then
            match make_no_os_matching_file_warning_message (system_os self)
                    (target_os self) path_imported_package_module_filepath with
            | Some message => mret NoMatchingFile
            | None => raise KeyError
            end
          else mret (GoOn path_imported_package_module_filepath)
      end
    else mret (GoOn imported_package_module_filepath)
  else if String.eqb (system_os self) "linux"
          && path_eq_str path_imported_package_module_filepath ".so"
  then
    if String.eqb (target_os self) "windows" then
      match path_with_suffix path_imported_package_module_filepath ".pyd" with
      | None => raise ValueError
      | Some path_imported_package_module_filepath =>
          if negb (fs_is_file w path_imported_package_module_filepath)
          then
            match make_no_os_matching_file_warning_message (system_os self)
                    (target_os self) path_imported_package_module_filepath with
            | Some message => mret NoMatchingFile
            | None => raise KeyError
            end
          else mret (GoOn path_imported_package_module_filepath)
      end
    else mret (GoOn imported_package_module_filepath)
  else mret (GoOn imported_package_module_filepath).

(** The classification at the end of [add_package_by_name]: the
    distribution branch and the standalone-file branch. *)
Definition fold_package (process_file : string -> M unit)
    (imported_package_module_filepath : string) : M unit :=
  self ← get_self;
  match get_distribution_name_of_package imported_package_module_filepath with
  | Some package_distribution_name =>
      match packages_distributions self !! package_distribution_name with
      | Some (real_package_name :: _) =>
          if bool_decide (real_package_name ∉ included_packages_names self)
          then
            let package_requirements :=
              default [] (get_distribution w real_package_name) in
            modify (λ self, set_included_packages_names
                      ({[ real_package_name ]} ∪ included_packages_names self)
                      self) ≫= λ _,
            modify (λ self, set_walk_log
                      (walk_log self ++
                       [DistributionEntry real_package_name
                          imported_package_module_filepath]) self) ≫= λ _,
            process_file imported_package_module_filepath
          else mret tt
      | _ => mret tt
      end
  | None =>
      if bool_decide
           (imported_package_module_filepath ∉ included_files_absolute_paths self)
      then add_python_file imported_package_module_filepath ≫= λ _,
           process_file imported_package_module_filepath
      else mret tt
  end.

(** The head of [add_package_by_name]: the module is imported, its
    [__file__] read, cleaned of its junk start and made absolute.
    [None] when there is no module or no file. *)
Definition imported_package_module_filepath (package_name current_filepath : string)
  : M (option string) :=
  imported_package_module ← _import_module package_name current_filepath;
  match imported_package_module with
  | None => mret None
  | Some imported_package_module =>
      match module_file imported_package_module with
      | None => mret None
      | Some imported_package_module_filepath =>
          imported_package_module_filepath ←
            abspath_of_parts
              (_remove_junk_start_of_path imported_package_module_filepath);
          mret (Some imported_package_module_filepath)
      end
  end.

(** [Resolver.add_package_by_name], over the [process_file] it calls *)
Definition add_package_by_name_with (process_file : string -> M unit)
    (package_name current_filepath : string) : M unit :=
  imported_package_module_filepath ←
    imported_package_module_filepath package_name current_filepath;
  match imported_package_module_filepath with
  | None => mret tt
  | Some imported_package_module_filepath =>
      if Str.contains (python_base_libs_folder_path w)
           imported_package_module_filepath
      then mret tt
      else
        self ← get_self;
        adapted ← adapt_compiled_extension self imported_package_module_filepath;
        match adapted with
        | NoMatchingFile => mret tt
        | GoOn imported_package_module_filepath =>
            fold_package process_file imported_package_module_filepath
        end
  end.

(** Modelled from the spec: the dispatch table
    [process_node_handlers_switch] of
    [serverlesspack.process_node_handlers], which this module imports.
    A handler of an import-bearing statement calls back
    [add_package_by_name] once per imported name with the current file
    path; the handler of any other handled kind does nothing; a kind
    without handler has no entry. *)
Definition process_node_handlers_switch (node : Node)
  : option ((string -> string -> M unit) -> string -> string -> M unit) :=
  match node with
  | ImportNode imported_names =>
      Some (λ add_package_by_name current_module current_filepath,
              for_each imported_names
                (λ name, add_package_by_name name current_filepath))
  | PlainNode => Some (λ _ _ _, mret tt)
  | UnhandledNode => None
  end.

(** [Resolver.process_node] *)
Definition process_node (add_package_by_name : string -> string -> M unit)
    (node : Node) (current_module current_filepath : string) : M unit :=
  match process_node_handlers_switch node with
  | Some handler => handler add_package_by_name current_module current_filepath
  | None => mret tt
  end.

(** [Resolver.process_file]; [fuel] bounds the depth of the calls of
    [process_file] within one another.  The file system is asked about
    [str(Path(filepath))]. *)
Fixpoint process_file (fuel : nat) (filepath : string) : M unit :=
  match fuel with
  | 0 => out_of_fuel
  | S fuel' =>
      if negb (fs_exists w (path_str filepath))
      then raise (FilepathDoesNotExist filepath)
      else
        modify (λ self, set_walk_log (walk_log self ++ [Walked filepath]) self)
        ≫= λ _,
        if String.eqb (path_suffix filepath) ".py" then
          match file_nodes w (path_str filepath) with
          | None => raise HostError
          | Some nodes =>
              for_each nodes (λ node,
                process_node (add_package_by_name_with (process_file fuel'))
                  node filepath filepath)
          end
        else add_python_file filepath
  end.

(** [Resolver.add_package_by_name] *)
Definition add_package_by_name (fuel : nat) (package_name current_filepath : string)
  : M unit :=
  add_package_by_name_with (process_file fuel) package_name current_filepath.

(** The body of the loop of [import_folder] for one directory that
    [os.walk] yields, followed by the walk of the sub-directories the
    body has kept. *)
Fixpoint import_folder_walk (excluded_folders_names excluded_files_extensions
    : option (list string)) (root_dirpath : string) (t : FolderTree) : M unit :=
  match t with
  | Folder _ dirs filenames =>
      kept ← map_each dirs (λ d,
               not_in (path_name (folder_name d)) excluded_folders_names);
      for_each filenames (λ filename,
        included ← not_in (path_suffix filename) excluded_files_extensions;
        if (included : bool)
        then add_python_file (os_path_join root_dirpath (path_str filename))
        else mret tt) ≫= λ _,
      (fix descend (dirs : list FolderTree) (kept : list bool) : M unit :=
         match dirs, kept with
         | d :: dirs', k :: kept' =>
             (if k
              then import_folder_walk excluded_folders_names
                     excluded_files_extensions
                     (os_path_join root_dirpath (folder_name d)) d
              else mret tt) ≫= λ _, descend dirs' kept'
         | _, _ => mret tt
         end) dirs kept
  end.

(** [Resolver.import_folder] *)
Definition import_folder (folderpath : string)
    (excluded_folders_names excluded_files_extensions : option (list string))
  : M unit :=
  match folder_tree w folderpath with
  | Some t =>
      import_folder_walk excluded_folders_names excluded_files_extensions
        folderpath t
  | None => mret tt
  end.

End Methods.

(** * Vocabulary of the properties *)

(** A path lies under a folder when it is the folder's path, a
    separator, and a relative path. *)
Definition located_under `{PathLib} (folder path : string) : Prop :=
  ∃ rest, path = folder +:+ String sep rest.

(** ** Invariants of a run

    [keeps P m]: the computation [m] takes a resolver that satisfies [P]
    to one that satisfies [P], whatever its outcome. *)

Definition keeps {A} (P : Resolver → Prop) (m : M A) : Prop :=
  ∀ self, P self → P (m self).2.

(** [yields m Q]: what [m] returns satisfies [Q]. *)
Definition yields {A} (m : M A) (Q : A → Prop) : Prop :=
  ∀ self a self', m self = (Returned a, self') → Q a.

(** [returns m]: the computation [m] returns from every resolver. *)
Definition returns {A} (m : M A) : Prop :=
  ∀ self, ∃ a self', m self = (Returned a, self').

(** An induction principle for folder trees that reaches the
    sub-directories. *)
Fixpoint FolderTree_nested_ind (Q : FolderTree → Prop)
    (HFolder : ∀ name dirs filenames, Forall Q dirs → Q (Folder name dirs filenames))
    (t : FolderTree) : Q t :=
  match t with
  | Folder name dirs filenames =>
      HFolder name dirs filenames
        ((fix all (l : list FolderTree) : Forall Q l :=
            match l with
            | [] => List.Forall_nil Q
            | d :: l' =>
                List.Forall_cons Q d l' (FolderTree_nested_ind Q HFolder d) (all l')
            end) dirs)
  end.

(** The distributions whose entry file the distribution branch handed to
    the walker, in the order of the walk log. *)
Definition distribution_entries (log : list WalkEvent) : list string :=
  omap (λ event,
          match event with
          | DistributionEntry name _ => Some name
          | Walked _ => None
          end) log.

(** Every distribution has one entry at most in the walk log, and the
    distributions that have one are the included packages. *)
Definition walked_once (self : Resolver) : Prop :=
  NoDup (distribution_entries (walk_log self))
  ∧ ∀ name, name ∈ distribution_entries (walk_log self)
            ↔ name ∈ included_packages_names self.

(** The calls a client makes on a resolver. *)
Inductive Operation :=
| ProcessFile (filepath : string)
| AddPackageByName (package_name current_filepath : string)
| AddPythonFile (filepath : string)
| ImportFolder (folderpath : string)
    (excluded_folders_names excluded_files_extensions : option (list string)).

Section Runs.
Context `{PathLib} (w : World).

Definition run_operation (fuel : nat) (op : Operation) : M unit :=
  match op with
  | ProcessFile filepath => process_file w fuel filepath
  | AddPackageByName package_name current_filepath =>
      add_package_by_name w fuel package_name current_filepath
  | AddPythonFile filepath => add_python_file w filepath
  | ImportFolder folderpath excluded_folders_names excluded_files_extensions =>
      import_folder w folderpath excluded_folders_names excluded_files_extensions
  end.

(** The resolver after a sequence of calls, each with its recursion
    budget; a call that raises leaves the resolver as far as it got,
    and the next call goes on from there. *)
Definition resolver_after (calls : list (nat * Operation)) (self : Resolver)
  : Resolver :=
  fold_left (λ self call, (run_operation call.1 call.2 self).2) calls self.

(** The import of [package_name] from [current_filepath] reaches the
    distribution branch of [add_package_by_name] with the file
    [filepath] of the distribution [name]. *)
Definition resolves_into_distribution (self : Resolver)
    (package_name current_filepath filepath name : string) : Prop :=
  ∃ resolved folder others,
    imported_package_module_filepath w package_name current_filepath self
    = (Returned (Some resolved), self)
    ∧ Str.contains (python_base_libs_folder_path w) resolved = false
    ∧ adapt_compiled_extension w self resolved self
      = (Returned (GoOn filepath), self)
    ∧ get_distribution_name_of_package filepath = Some folder
    ∧ packages_distributions self !! folder = Some (name :: others).

End Runs.

(** The file and the initializer that [add_python_file] may add with it
    are both outside the folder of the base libraries. *)
Definition outside_base_libs `{PathLib} (w : World) (filepath : string) : Prop :=
  ¬ located_under (python_base_libs_folder_path w) filepath
  ∧ ¬ located_under (python_base_libs_folder_path w)
        (os_path_join (os_path_dirname filepath) "__init__.py").

Definition walk_event_filepath (event : WalkEvent) : string :=
  match event with
  | Walked filepath => filepath
  | DistributionEntry _ filepath => filepath
  end.

(** No included file and no walked file lies under the folder of the
    base libraries; [os] is the host the resolver was constructed on. *)
Definition base_libs_excluded `{PathLib} (w : World) (os : string) (self : Resolver)
  : Prop :=
  system_os self = os
  ∧ (∀ f, f ∈ included_files_absolute_paths self →
          ¬ located_under (python_base_libs_folder_path w) f)
  ∧ (∀ event, event ∈ walk_log self →
              ¬ located_under (python_base_libs_folder_path w)
                  (walk_event_filepath event)).

(** The calls of a run of the walker: imports to resolve, and files
    outside the base libraries to walk or add. *)
Definition walker_call `{PathLib} (w : World) (call : nat * Operation) : Prop :=
  match call.2 with
  | ProcessFile filepath | AddPythonFile filepath => outside_base_libs w filepath
  | AddPackageByName _ _ => True
  | ImportFolder _ _ _ => False
  end.

(** Strings for the proofs: [k] times the character [c], and whether
    [c] occurs in a string. *)
Fixpoint repeat_char (c : ascii) (k : nat) : string :=
  match k with 0 => EmptyString | S k' => String c (repeat_char c k') end.

Fixpoint has_char (c : ascii) (s : string) : bool :=
  match s with
  | EmptyString => false
  | String a s' => Ascii.eqb a c || has_char c s'
  end.

(** ** Example hosts *)

Module Examples.

(** A Linux host: a project in [/proj] with a compiled extension that
    has no Windows counterpart, and the standard library under
    [/usr/lib]. *)
Definition linux_files : list string :=
  ["/proj/main.py"; "/proj/ext/__init__.py"; "/proj/ext/fast.so";
   "/usr/lib/python3.8/os.py"].

Definition linux_world : World := {|
  platform_system := "Linux";
  python_base_libs_folder_path := "/usr/lib";
  getcwd := "/proj";
  argv0 := "/proj/main.py";
  fs_exists := λ p, bool_decide (p ∈ linux_files);
  fs_is_file := λ p, bool_decide (p ∈ linux_files);
  import_module := λ name,
    if String.eqb name "ext.fast"
    then Imported {| module_file := Some "/proj/ext/fast.so" |}
    else if String.eqb name "os"
    then Imported {| module_file := Some "/usr/lib/python3.8/os.py" |}
    else ModuleNotFoundError;
  module_from_file_location := λ _ _, FileModule None;
  installed_packages_distributions := ∅;
  get_distribution := λ _, None;
  file_nodes := λ p,
    if String.eqb p "/proj/main.py"
    then Some [ImportNode ["os"]; PlainNode; ImportNode ["ext.fast"]]
    else None;
  folder_tree := λ folderpath,
    if String.eqb folderpath "/proj"
    then Some (Folder "proj"
                 [Folder "ext" [] ["__init__.py"; "fast.so"]] ["main.py"])
    else None
|}.

(** The resolver [Resolver("/proj/main.py", "windows")] on that host. *)
Definition linux_resolver : Resolver := {|
  root_filepath := "/proj/main.py";
  verbose := false;
  system_os := "linux";
  target_os := "windows";
  packages_distributions := ∅;
  included_packages_names := ∅;
  included_files_absolute_paths := {[ "/proj/main.py" ]};
  walk_log := []
|}.

(** A Windows host with the same project, the extension compiled for
    Windows only. *)
Definition windows_files : list string :=
  ["C:\proj\main.py"; "C:\proj\ext\__init__.py"; "C:\proj\ext\fast.pyd"].

Definition windows_world : World := {|
  platform_system := "Windows";
  python_base_libs_folder_path := "C:\Python38";
  getcwd := "C:\proj";
  argv0 := "C:\proj\main.py";
  fs_exists := λ p, bool_decide (p ∈ windows_files);
  fs_is_file := λ p, bool_decide (p ∈ windows_files);
  import_module := λ name,
    if String.eqb name "ext.fast"
    then Imported {| module_file := Some "C:\proj\ext\fast.pyd" |}
    else ModuleNotFoundError;
  module_from_file_location := λ _ _, FileModule None;
  installed_packages_distributions := ∅;
  get_distribution := λ _, None;
  file_nodes := λ p,
    if String.eqb p "C:\proj\main.py"
    then Some [ImportNode ["ext.fast"]]
    else None;
  folder_tree := λ _, None
|}.

(** The resolver [Resolver("C:\proj\main.py", "linux")] on that host. *)
Definition windows_resolver : Resolver := {|
  root_filepath := "C:\proj\main.py";
  verbose := false;
  system_os := "windows";
  target_os := "linux";
  packages_distributions := ∅;
  included_packages_names := ∅;
  included_files_absolute_paths := {[ "C:\proj\main.py" ]};
  walk_log := []
|}.

(** A Linux host with the distribution [requests] installed in a
    virtual environment; the root file imports two of its modules. *)
Definition venv_files : list string :=
  ["/proj/main.py";
   "/venv/lib/python3.8/site-packages/requests/__init__.py";
   "/venv/lib/python3.8/site-packages/requests/api.py"].

Definition venv_world : World := {|
  platform_system := "Linux";
  python_base_libs_folder_path := "/usr/lib";
  getcwd := "/proj";
  argv0 := "/proj/main.py";
  fs_exists := λ p, bool_decide (p ∈ venv_files);
  fs_is_file := λ p, bool_decide (p ∈ venv_files);
  import_module := λ name,
    if String.eqb name "requests"
    then Imported {| module_file :=
           Some "/venv/lib/python3.8/site-packages/requests/__init__.py" |}
    else if String.eqb name "requests.api"
    then Imported {| module_file :=
           Some "/venv/lib/python3.8/site-packages/requests/api.py" |}
    else ModuleNotFoundError;
  module_from_file_location := λ _ _, FileModule None;
  installed_packages_distributions := {[ "requests" := ["requests"] ]};
  get_distribution := λ name,
    if String.eqb name "requests" then Some ["urllib3"] else None;
  file_nodes := λ p,
    if String.eqb p "/proj/main.py"
    then Some [ImportNode ["requests"; "requests.api"]]
    else if String.eqb p "/venv/lib/python3.8/site-packages/requests/__init__.py"
    then Some [ImportNode ["requests.api"]; PlainNode]
    else Some [];
  folder_tree := λ _, None
|}.

(** The resolver [Resolver("/proj/main.py", "linux")] on that host. *)
Definition venv_resolver : Resolver := {|
  root_filepath := "/proj/main.py";
  verbose := false;
  system_os := "linux";
  target_os := "linux";
  packages_distributions := {[ "requests" := ["requests"] ]};
  included_packages_names := ∅;
  included_files_absolute_paths := {[ "/proj/main.py" ]};
  walk_log := []
|}.

End Examples.

(** ** Further vocabulary *)

(** The number of leading parts on which two part lists agree. *)
Fixpoint matching_prefix_length (base_path_parts module_name_parts : list string)
  : nat :=
  match base_path_parts, module_name_parts with
  | b :: base_path_parts', m :: module_name_parts' =>
      if String.eqb b m
      then S (matching_prefix_length base_path_parts' module_name_parts')
      else 0
  | _, _ => 0
  end.

(** [steps R m]: the resolver that [m] leaves is related by [R] to the
    one it was started on, whatever the outcome. *)
Definition steps {A} (R : Resolver → Resolver → Prop) (m : M A) : Prop :=
  ∀ self, R self (m self).2.

(** The second resolver has the configuration of the first, includes
    its files and its packages, and its walk log goes on from the log of
    the first. *)
Definition extends (self self' : Resolver) : Prop :=
  root_filepath self' = root_filepath self
  ∧ verbose self' = verbose self
  ∧ system_os self' = system_os self
  ∧ target_os self' = target_os self
  ∧ packages_distributions self' = packages_distributions self
  ∧ included_packages_names self ⊆ included_packages_names self'
  ∧ included_files_absolute_paths self ⊆ included_files_absolute_paths self'
  ∧ walk_log self `prefix_of` walk_log self'.

(** The second resolver is the first but for its included files, which
    include those of the first. *)
Definition adds_files_only (self self' : Resolver) : Prop :=
  ∃ files,
    self' = set_included_files files self
    ∧ included_files_absolute_paths self ⊆ files.

(** The names a statement imports. *)
Definition node_imported_names (node : Node) : list string :=
  match node with
  | ImportNode imported_names => imported_names
  | PlainNode | UnhandledNode => []
  end.

(** The sub-directories that the body of the loop of [import_folder]
    keeps for the walk. *)
Definition kept_dirs `{PathLib} (excluded_folders_names : list string)
    (dirs : list FolderTree) : list FolderTree :=
  List.filter
    (λ d, bool_decide (path_name (folder_name d) ∉ excluded_folders_names)) dirs.

(** The import of [package_name] from [current_filepath] reaches the
    classification at the end of [add_package_by_name] with the file
    [filepath]. *)
Definition resolves_to_file `{PathLib} (w : World) (self : Resolver)
    (package_name current_filepath filepath : string) : Prop :=
  ∃ resolved,
    imported_package_module_filepath w package_name current_filepath self
    = (Returned (Some resolved), self)
    ∧ Str.contains (python_base_libs_folder_path w) resolved = false
    ∧ adapt_compiled_extension w self resolved self
      = (Returned (GoOn filepath), self).

(** The module names under which the installed distributions are
    recorded: the first name of each entry of the table, the one that
    [add_package_by_name] adds to the included packages. *)
Definition distribution_names (self : Resolver) : gset string :=
  list_to_set
    (omap (λ entry : string * list string, head entry.2)
       (map_to_list (packages_distributions self))).




(** The second resolver has the table of distributions of the first,
    and every package it includes is included by the first or is the
    first name of an entry of the table. *)
Definition records_from_table (self self' : Resolver) : Prop :=
  packages_distributions self' = packages_distributions self
  ∧ included_packages_names self'
    ⊆ included_packages_names self ∪ distribution_names self.

(** ** Further example hosts *)

Module Scenarios.

(** A Linux host with a project whose two modules import one another.
    The interpreter also knows a module whose file has been removed
    from the project, a distribution whose entry file is gone from the
    virtual environment, and a module whose import fails. *)
Definition cyclic_files : list string :=
  ["/proj/main.py"; "/proj/helpers.py"; "/proj/job.py"].

Definition cyclic_world : World := {|
  platform_system := "Linux";
  python_base_libs_folder_path := "/usr/lib";
  getcwd := "/proj";
  argv0 := "/proj/main.py";
  fs_exists := λ p, bool_decide (p ∈ cyclic_files);
  fs_is_file := λ p, bool_decide (p ∈ cyclic_files);
  import_module := λ name,
    if String.eqb name "main"
    then Imported {| module_file := Some "/proj/main.py" |}
    else if String.eqb name "helpers"
    then Imported {| module_file := Some "/proj/helpers.py" |}
    else if String.eqb name "gone"
    then Imported {| module_file := Some "/proj/gone.py" |}
    else if String.eqb name "stale"
    then Imported {| module_file :=
           Some "/venv/lib/python3.8/site-packages/stale/__init__.py" |}
    else if String.eqb name "broken"
    then ImportRaised HostError
    else ModuleNotFoundError;
  module_from_file_location := λ _ _, FileModule None;
  installed_packages_distributions := {[ "stale" := ["stale"] ]};
  get_distribution := λ _, None;
  file_nodes := λ p,
    if String.eqb p "/proj/main.py"
    then Some [PlainNode; ImportNode ["helpers"]]
    else if String.eqb p "/proj/helpers.py"
    then Some [ImportNode ["main"]]
    else if String.eqb p "/proj/job.py"
    then Some [PlainNode; ImportNode ["broken"; "helpers"]; ImportNode ["main"]]
    else None;
  folder_tree := λ _, None
|}.

(** The resolver [Resolver("/proj/main.py", "linux")] on that host. *)
Definition cyclic_resolver : Resolver := {|
  root_filepath := "/proj/main.py";
  verbose := false;
  system_os := "linux";
  target_os := "linux";
  packages_distributions := {[ "stale" := ["stale"] ]};
  included_packages_names := ∅;
  included_files_absolute_paths := {[ "/proj/main.py" ]};
  walk_log := []
|}.


End Scenarios.

(** * Properties *)

(** Closes [x ∉ [a; b; ...]] for literals. *)
Ltac not_elem_of_literals :=
  repeat (apply not_elem_of_cons; split; [discriminate|]); apply not_elem_of_nil.

(** ** Path algebra *)

Section PathHelpersFacts.
Context `{PathLib}.

Lemma scan_parents_parts_skip (parents_parts pre rest : list string) (i : nat) :
  "site-packages" ∉ pre →
  scan_parents_parts parents_parts i (pre ++ rest)
  = scan_parents_parts parents_parts (i + length pre) rest.
Proof.
  revert i. induction pre as [|p pre IH]; intros i Hpre; simpl.
  - by rewrite Nat.add_0_r.
  - apply not_elem_of_cons in Hpre as [Hp Hpre].
    destruct (String.eqb_spec p "site-packages") as [->|_]; [done|].
    rewrite IH by done. f_equal. lia.
Qed.

Lemma scan_parents_parts_no_marker (parents_parts rest : list string) (i : nat) :
  "site-packages" ∉ rest → scan_parents_parts parents_parts i rest = None.
Proof.
  intros Hrest.
  rewrite <- (app_nil_r rest), scan_parents_parts_skip by done.
  done.
Qed.

Lemma consume_base_path_parts_is_drop (source base cleaned : list string)
    (i : nat) (matching : bool) :
  (∃ k, cleaned = drop k source) →
  ∃ k, consume_base_path_parts source i base cleaned matching = drop k source.
Proof.
  revert i cleaned matching.
  induction base as [|b base IH]; intros i cleaned matching Hc; simpl; [done|].
  destruct (i <? length source); [|by apply IH].
  destruct matching; [|by apply IH].
  case_bool_decide; apply IH; eauto.
Qed.

Lemma _path_to_module_path_drops_first (base_path module_name : string) :
  match _path_to_module_path base_path module_name with
  | Some module_path =>
      ∃ k, module_path
           = Str.join "." (drop (S k) (path_parts (Str.replace "." "/" module_name)))
  | None => _remove_junk_start_of_path base_path = []
  end.
Proof.
  unfold _path_to_module_path.
  destruct (_remove_junk_start_of_path base_path) as [|pkg base]; [done|].
  destruct (consume_base_path_parts_is_drop
              (drop 1 (path_parts (Str.replace "." "/" module_name)))
              base (drop 1 (path_parts (Str.replace "." "/" module_name))) 0 true)
    as [k Hk]; [by exists 0|].
  exists k. rewrite Hk, drop_drop. done.
Qed.

End PathHelpersFacts.

(** C1, as stated, fails: with the absolute base path ["/pkg/sub"] the
    root ["/"] is the first part, so the module name ["pkg.sub.mod"] is
    not reduced to ["mod"]; and ["other.mod"] does not come back
    unchanged for the base path ["/pkg"]. *)
Lemma path_to_module_path_absolute_base_counterexample :
  ¬ (_path_to_module_path (H:=posix_pathlib) "/pkg/sub" "pkg.sub.mod" = Some "mod"
     ∧ _path_to_module_path (H:=posix_pathlib) "/pkg" "other.mod" = Some "other.mod").
Proof. intros [Hmod _]. vm_compute in Hmod. discriminate Hmod. Qed.

(** C1, amended: for the relative base path ["pkg/sub"] and the module
    name ["pkg.sub.mod"], [_path_to_module_path] returns ["mod"]; for the
    absolute base path ["/pkg/sub"] it returns ["sub.mod"]; for the base
    path ["/pkg"] and the module name ["other.mod"] it returns ["mod"];
    and whatever the base path, the first segment of the module name is
    not part of the result. *)
Theorem path_to_module_path_examples :
  _path_to_module_path (H:=posix_pathlib) "pkg/sub" "pkg.sub.mod" = Some "mod"
  ∧ _path_to_module_path (H:=posix_pathlib) "/pkg/sub" "pkg.sub.mod" = Some "sub.mod"
  ∧ _path_to_module_path (H:=posix_pathlib) "/pkg" "other.mod" = Some "mod"
  ∧ ∀ base_path module_name,
      match _path_to_module_path (H:=posix_pathlib) base_path module_name with
      | Some module_path =>
          ∃ k, module_path
               = Str.join "."
                   (drop (S k)
                      (path_parts (H:=posix_pathlib)
                         (Str.replace "." "/" module_name)))
      | None => _remove_junk_start_of_path (H:=posix_pathlib) base_path = []
      end.
Proof.
  split; [done|]. split; [done|]. split; [done|].
  intros base_path module_name.
  apply (_path_to_module_path_drops_first (H:=posix_pathlib)).
Qed.

(** C8, as stated, fails: of the two leading [".."] segments of
    ["../../pkg/mod.py"] only the first is removed. *)
Lemma remove_junk_start_of_path_counterexample :
  _remove_junk_start_of_path (H:=posix_pathlib) "../../pkg/mod.py" ≠ ["pkg"; "mod.py"].
Proof. vm_compute. discriminate. Qed.

(** C8, amended: when the first part of a path is ["."] or [".."],
    [_remove_junk_start_of_path] removes that one part and returns the
    others as they are, further [".."] parts included; the
    path-to-module-path algorithm takes the first part left after that
    as the package. *)
Theorem remove_junk_start_of_path_strips_first_part `{PathLib}
    (path first : string) (rest : list string) :
  path_parts path = first :: rest →
  first = "." ∨ first = ".." →
  _remove_junk_start_of_path path = rest
  ∧ ∀ module_name,
      _path_to_module_path path module_name
      = match rest with
        | module_package :: cleaned_base_path_parts =>
            let source := drop 1 (path_parts (Str.replace "." "/" module_name)) in
            Some (Str.join "."
                    (consume_base_path_parts source 0 cleaned_base_path_parts
                       source true))
        | [] => None
        end.
Proof.
  intros Hparts Hfirst.
  assert (_remove_junk_start_of_path path = rest) as Hjunk.
  { unfold _remove_junk_start_of_path. rewrite Hparts.
    by destruct Hfirst as [-> | ->]. }
  split; [done|].
  intros module_name. unfold _path_to_module_path. rewrite Hjunk.
  by destruct rest.
Qed.

Lemma remove_junk_start_of_path_strips_first_part_witness :
  _remove_junk_start_of_path (H:=posix_pathlib) "../../pkg/mod.py"
  = [".."; "pkg"; "mod.py"]
  ∧ _path_to_module_path (H:=posix_pathlib) "../../pkg/sub" "pkg.sub.mod"
    = Some "sub.mod".
Proof.
  split.
  - apply (remove_junk_start_of_path_strips_first_part (H:=posix_pathlib)
             "../../pkg/mod.py" ".." [".."; "pkg"; "mod.py"]);
      [reflexivity | right; reflexivity].
  - rewrite (proj2 (remove_junk_start_of_path_strips_first_part (H:=posix_pathlib)
                      "../../pkg/sub" ".." [".."; "pkg"; "sub"]
                      eq_refl (or_intror eq_refl))).
    reflexivity.
Defined.

(** C2, as stated, fails: a module that is a single file of the
    installed-libraries folder has the marker among its segments, and the
    function returns [None], not the segment after the marker. *)
Lemma get_distribution_name_single_file_counterexample :
  path_parts (H:=posix_pathlib) "/venv/lib/python3.8/site-packages/six.py"
  = ["/"; "venv"; "lib"; "python3.8"; "site-packages"; "six.py"]
  ∧ get_distribution_name_of_package (H:=posix_pathlib)
      "/venv/lib/python3.8/site-packages/six.py" ≠ Some "six.py".
Proof. split; [reflexivity|]. vm_compute. discriminate. Qed.

(** C2, amended: where [Path.parents] carries the parts of the path,
    [get_distribution_name_of_package] returns the segment right after
    the first ["site-packages"] segment when that segment is not the last
    one of the path; it returns [None] when the marker is the last
    segment or the last but one, and for every path with no marker
    segment. *)
Theorem get_distribution_name_of_package_spec `{PathLib} :
  parents_has_parts = true →
  (∀ path pre d post,
     path_parts path = pre ++ "site-packages" :: d :: post →
     "site-packages" ∉ pre → post ≠ [] →
     get_distribution_name_of_package path = Some d)
  ∧ (∀ path pre post,
       path_parts path = pre ++ "site-packages" :: post →
       "site-packages" ∉ pre → length post ≤ 1 →
       get_distribution_name_of_package path = None)
  ∧ (∀ path,
       "site-packages" ∉ path_parts path →
       get_distribution_name_of_package path = None).
Proof.
  intros Hparents.
  assert (∀ path, get_distribution_name_of_package path
                  = scan_parents_parts (path_parts path) 0 (path_parts path)) as Hscan.
  { intros path. unfold get_distribution_name_of_package, path_parents_parts.
    by rewrite Hparents. }
  split; [|split].
  - intros path pre d post Hparts Hpre Hpost.
    rewrite Hscan, Hparts.
    rewrite scan_parents_parts_skip by done. simpl.
    rewrite !length_app. simpl.
    destruct post as [|p post]; [done|]. simpl.
    replace (length pre + 1 <? length pre + S (S (S (length post))) - 1)
      with true by (symmetry; apply Nat.ltb_lt; lia).
    rewrite lookup_app_r by lia.
    by replace (length pre + 1 - length pre) with 1 by lia.
  - intros path pre post Hparts Hpre Hpost.
    rewrite Hscan, Hparts.
    rewrite scan_parents_parts_skip by done. simpl.
    rewrite !length_app. simpl.
    by replace (length pre + 1 <? length pre + S (length post) - 1)
      with false by (symmetry; apply Nat.ltb_ge; lia).
  - intros path Hno. rewrite Hscan.
    by apply scan_parents_parts_no_marker.
Qed.

Lemma get_distribution_name_of_package_spec_witness :
  get_distribution_name_of_package (H:=posix_pathlib)
    "/venv/lib/python3.8/site-packages/requests/api.py" = Some "requests"
  ∧ get_distribution_name_of_package (H:=posix_pathlib)
      "/venv/lib/python3.8/site-packages/six.py" = None
  ∧ get_distribution_name_of_package (H:=posix_pathlib) "/proj/main.py" = None.
Proof.
  destruct (get_distribution_name_of_package_spec (H:=posix_pathlib) eq_refl)
    as (Hafter & Hlast & Hnone).
  split; [|split].
  - apply (Hafter _ ["/"; "venv"; "lib"; "python3.8"] "requests" ["api.py"]);
      [reflexivity | not_elem_of_literals | discriminate].
  - apply (Hlast _ ["/"; "venv"; "lib"; "python3.8"] ["six.py"]);
      [reflexivity | not_elem_of_literals | simpl; lia].
  - apply Hnone. vm_compute. not_elem_of_literals.
Defined.

(** ** Computations: unfolding and framing *)

Lemma bind_run {A B} (m : M A) (f : A → M B) (self : Resolver) :
  (m ≫= f) self
  = match m self with
    | (Returned a, self') => f a self'
    | (Raised e, self') => (Raised e, self')
    | (OutOfFuel, self') => (OutOfFuel, self')
    end.
Proof. reflexivity. Qed.

Lemma bind_returned {A B} (m : M A) (f : A → M B) (self self' : Resolver) (a : A) :
  m self = (Returned a, self') → (m ≫= f) self = f a self'.
Proof. intros Hm. by rewrite bind_run, Hm. Qed.

Lemma prefix_app (s1 s2 : string) : String.prefix s1 (s1 +:+ s2) = true.
Proof.
  induction s1 as [|c s1 IH]; simpl; [by destruct s2|].
  destruct (ascii_dec c c); [done|congruence].
Qed.

Lemma contains_prefix (needle hay : string) :
  String.prefix needle hay = true → Str.contains needle hay = true.
Proof. intros Hp. destruct hay; unfold Str.contains; fold Str.contains; by rewrite Hp. Qed.

Lemma located_under_contains `{PathLib} (folder path : string) :
  located_under folder path → Str.contains folder path = true.
Proof. intros [rest ->]. apply contains_prefix, prefix_app. Qed.

(** ** Construction *)

(** C10: the constructor never looks at the file system: for every root
    file path and every supported target OS (given, or defaulted to the
    host's) it returns a resolver whose included files are the root file
    alone; that the root does not exist only shows when [process_file]
    is called on it, which raises and leaves the resolver as it was. *)
Theorem init_does_not_check_root_exists `{PathLib} (w : World)
    (root : string) (target : option string) (is_verbose : bool) :
  default (Str.lower (platform_system w)) target ∈ TARGETS_OS →
  ∃ self,
    __init__ w root target is_verbose = inr self
    ∧ root_filepath self = root
    ∧ included_files_absolute_paths self = {[ root ]}
    ∧ included_packages_names self = ∅
    ∧ (fs_exists w (path_str root) = false →
       ∀ fuel, process_file w (S fuel) root self
               = (Raised (FilepathDoesNotExist root), self)).
Proof.
  intros Hos. unfold __init__.
  destruct target as [t|]; simpl in Hos;
    rewrite (bool_decide_eq_true_2 _ Hos);
    (eexists; split; [reflexivity|]; repeat split; simpl;
     intros Hmissing fuel; by rewrite Hmissing).
Qed.

(** ** Adding files *)

(** C7: after [add_python_file(filepath)], when an [__init__.py] exists
    in the directory of [filepath], both [filepath] and that
    [__init__.py] are included files. *)
Theorem add_python_file_includes_adjacent_init `{PathLib} (w : World)
    (filepath : string) (self : Resolver) :
  fs_exists w (os_path_join (os_path_dirname filepath) "__init__.py") = true →
  ∃ self',
    add_python_file w filepath self = (Returned tt, self')
    ∧ filepath ∈ included_files_absolute_paths self'
    ∧ os_path_join (os_path_dirname filepath) "__init__.py"
        ∈ included_files_absolute_paths self'.
Proof.
  intros Hinit. unfold add_python_file.
  eexists. split; [reflexivity|]. rewrite Hinit.
  repeat case_bool_decide; simpl; set_solver.
Qed.

(** What [add_python_file] leaves alone: everything but the included
    files, which it extends by the file and possibly its initializer. *)
Lemma add_python_file_run `{PathLib} (w : World) (filepath : string)
    (self : Resolver) :
  ∃ files,
    add_python_file w filepath self = (Returned tt, set_included_files files self)
    ∧ included_files_absolute_paths self ⊆ files
    ∧ filepath ∈ files
    ∧ ∀ f, f ∈ files →
           f ∈ included_files_absolute_paths self ∨ f = filepath
           ∨ f = os_path_join (os_path_dirname filepath) "__init__.py".
Proof.
  unfold add_python_file, modify. rewrite bind_run.
  destruct self as [r v so t pd names files log]; simpl.
  destruct (fs_exists w _); repeat case_bool_decide; simpl;
    eexists; (split; [reflexivity|]); set_solver.
Qed.

(** ** Resolving one import *)

Section AddPackageByName.
Context `{PathLib} (w : World).

(** On a Linux host the compiled-extension block never rewrites the
    path: its guard compares the path object with the string [".so"]. *)
Lemma adapt_compiled_extension_linux_host (self self' : Resolver) (path : string) :
  system_os self = "linux" →
  adapt_compiled_extension w self path self' = (Returned (GoOn path), self').
Proof.
  intros Hos. unfold adapt_compiled_extension, path_eq_str. rewrite Hos.
  simpl. done.
Qed.

(** C4: on a Windows host building for Linux, when the imported module
    file has the suffix [.pyd] and its [.so] sibling is not a file,
    [add_package_by_name] returns and the resolver (included files,
    included packages and walk log) is as before. *)
Theorem add_package_by_name_skips_without_so_sibling (fuel : nat)
    (self : Resolver) (package_name current_filepath pyd_path so_path : string) :
  system_os self = "windows" →
  target_os self = "linux" →
  imported_package_module_filepath w package_name current_filepath self
  = (Returned (Some pyd_path), self) →
  path_suffix pyd_path = ".pyd" →
  path_with_suffix pyd_path ".so" = Some so_path →
  fs_is_file w so_path = false →
  add_package_by_name w fuel package_name current_filepath self
  = (Returned tt, self).
Proof.
  intros Hhost Htarget Himported Hsuffix Hsibling Hmissing.
  unfold add_package_by_name, add_package_by_name_with.
  rewrite (bind_returned _ _ _ _ _ Himported).
  destruct (Str.contains _ _); [done|].
  rewrite bind_run. simpl.
  unfold adapt_compiled_extension.
  rewrite Hhost, Htarget, Hsuffix, Hsibling, Hmissing. done.
Qed.

(** When the file an import resolves to lies under the folder of the
    host's base libraries, [add_package_by_name] returns at once: the
    file is not added to the included files and not walked, the resolver
    is as before. *)
Lemma add_package_by_name_skips_base_libs (fuel : nat) (self : Resolver)
    (package_name current_filepath filepath : string) :
  imported_package_module_filepath w package_name current_filepath self
  = (Returned (Some filepath), self) →
  located_under (python_base_libs_folder_path w) filepath →
  add_package_by_name w fuel package_name current_filepath self
  = (Returned tt, self).
Proof.
  intros Himported Hunder.
  unfold add_package_by_name, add_package_by_name_with.
  rewrite (bind_returned _ _ _ _ _ Himported).
  by rewrite (located_under_contains _ _ Hunder).
Qed.

End AddPackageByName.

Example linux_resolver_init :
  __init__ Examples.linux_world "/proj/main.py" (Some "windows") false = inr Examples.linux_resolver.
Proof. reflexivity. Qed.

Example windows_resolver_init :
  __init__ Examples.windows_world "C:\proj\main.py" (Some "linux") false
  = inr Examples.windows_resolver.
Proof. reflexivity. Qed.

Lemma init_does_not_check_root_exists_witness :
  ∃ self,
    __init__ Examples.linux_world "/proj/missing.py" (Some "linux") false = inr self
    ∧ root_filepath self = "/proj/missing.py"
    ∧ included_files_absolute_paths self = {[ "/proj/missing.py" ]}
    ∧ included_packages_names self = ∅
    ∧ (fs_exists Examples.linux_world
         (path_str (H:=posix_pathlib) "/proj/missing.py") = false →
       ∀ fuel, process_file (H:=posix_pathlib) Examples.linux_world (S fuel)
                 "/proj/missing.py" self
               = (Raised (FilepathDoesNotExist "/proj/missing.py"), self)).
Proof.
  apply (init_does_not_check_root_exists (H:=posix_pathlib)).
  simpl. apply list_elem_of_further, list_elem_of_here.
Defined.

Lemma add_python_file_includes_adjacent_init_witness :
  ∃ self',
    add_python_file (H:=posix_pathlib) Examples.linux_world "/proj/ext/fast.so"
      Examples.linux_resolver = (Returned tt, self')
    ∧ "/proj/ext/fast.so" ∈ included_files_absolute_paths self'
    ∧ "/proj/ext/__init__.py" ∈ included_files_absolute_paths self'.
Proof.
  apply (add_python_file_includes_adjacent_init (H:=posix_pathlib)
           Examples.linux_world "/proj/ext/fast.so" Examples.linux_resolver).
  reflexivity.
Defined.

Lemma add_package_by_name_skips_without_so_sibling_witness :
  add_package_by_name (H:=nt_pathlib) Examples.windows_world 1 "ext.fast"
    "C:\proj\main.py" Examples.windows_resolver
  = (Returned tt, Examples.windows_resolver).
Proof.
  apply (add_package_by_name_skips_without_so_sibling (H:=nt_pathlib)
           Examples.windows_world 1 Examples.windows_resolver "ext.fast"
           "C:\proj\main.py" "C:\proj\ext\fast.pyd" "C:\proj\ext\fast.so");
    reflexivity.
Defined.

Example add_package_by_name_skips_os_import :
  add_package_by_name (H:=posix_pathlib) Examples.linux_world 1 "os"
    "/proj/main.py" Examples.linux_resolver
  = (Returned tt, Examples.linux_resolver).
Proof.
  apply (add_package_by_name_skips_base_libs (H:=posix_pathlib)
           Examples.linux_world 1 Examples.linux_resolver "os" "/proj/main.py"
           "/usr/lib/python3.8/os.py").
  - reflexivity.
  - exists "python3.8/os.py". reflexivity.
Qed.

(** C3 at its failing input: on a Linux host building for Windows, the
    import of a module whose file has the suffix [.so] and no [.pyd]
    sibling is not skipped: the [.so] file is added to the included
    files and walked. *)
Theorem linux_host_includes_so_for_windows_target :
  path_suffix (H:=posix_pathlib) "/proj/ext/fast.so" = ".so"
  ∧ path_with_suffix (H:=posix_pathlib) "/proj/ext/fast.so" ".pyd"
    = Some "/proj/ext/fast.pyd"
  ∧ fs_is_file Examples.linux_world "/proj/ext/fast.pyd" = false
  ∧ ∃ self',
      add_package_by_name (H:=posix_pathlib) Examples.linux_world 1 "ext.fast"
        "/proj/main.py" Examples.linux_resolver = (Returned tt, self')
      ∧ "/proj/ext/fast.so" ∈ included_files_absolute_paths self'
      ∧ walk_log self' = [Walked "/proj/ext/fast.so"].
Proof.
  split; [reflexivity|]. split; [reflexivity|]. split; [reflexivity|].
  eexists. split; [vm_compute; reflexivity|].
  split; [|reflexivity].
  refine (bool_decide_unpack _ _). vm_compute. exact I.
Qed.

(** ** Invariants of a run *)

Section Keeps.
Context (P : Resolver → Prop).

Lemma keeps_ret {A} (a : A) : keeps P (mret a).
Proof. by intros self. Qed.

Lemma keeps_raise {A} (e : Exn) : keeps P (raise (A:=A) e).
Proof. by intros self. Qed.

Lemma keeps_out_of_fuel {A} : keeps P (out_of_fuel (A:=A)).
Proof. by intros self. Qed.

Lemma keeps_get_self : keeps P get_self.
Proof. by intros self. Qed.

Lemma keeps_modify (f : Resolver → Resolver) :
  (∀ self, P self → P (f self)) → keeps P (modify f).
Proof. intros Hf self. apply Hf. Qed.

Lemma keeps_bind {A B} (m : M A) (f : A → M B) :
  keeps P m → (∀ a, keeps P (f a)) → keeps P (m ≫= f).
Proof.
  intros Hm Hf self Hself. rewrite bind_run.
  specialize (Hm self Hself).
  destruct (m self) as [[a| e |] self']; simpl in *; [by apply Hf | done | done].
Qed.

Lemma keeps_for_each {A} (l : list A) (body : A → M unit) :
  (∀ x, keeps P (body x)) → keeps P (for_each l body).
Proof.
  intros Hbody. induction l as [|x l IH]; simpl.
  - apply keeps_ret.
  - apply keeps_bind; [apply Hbody | by intros _].
Qed.

Lemma keeps_map_each {A B} (l : list A) (f : A → M B) :
  (∀ x, keeps P (f x)) → keeps P (map_each l f).
Proof.
  intros Hf. induction l as [|x l IH]; simpl.
  - apply keeps_ret.
  - apply keeps_bind; [apply Hf | intros y].
    apply keeps_bind; [apply IH | intros ys]. apply keeps_ret.
Qed.

Lemma keeps_not_in (x : string) (container : option (list string)) :
  keeps P (not_in x container).
Proof. destruct container; [apply keeps_ret | apply keeps_raise]. Qed.

Lemma keeps_bind_yields {A B} (m : M A) (f : A → M B) (Q : A → Prop) :
  keeps P m → yields m Q → (∀ a, Q a → keeps P (f a)) → keeps P (m ≫= f).
Proof.
  intros Hm HQ Hf self Hself. rewrite bind_run.
  specialize (Hm self Hself). specialize (HQ self).
  destruct (m self) as [[a| e |] self']; simpl in *; [|done|done].
  apply Hf; [by eapply HQ | done].
Qed.

End Keeps.

Lemma yields_imported_package_module_filepath `{PathLib} (w : World)
    (package_name current_filepath : string) :
  yields (imported_package_module_filepath w package_name current_filepath)
    (λ found, ∀ filepath, found = Some filepath →
                ∃ x, filepath = os_path_abspath (getcwd w) x).
Proof.
  intros self found self' Hrun filepath ->.
  unfold imported_package_module_filepath in Hrun. rewrite bind_run in Hrun.
  destruct (_import_module w package_name current_filepath self)
    as [[[m|]| |] self1]; [|done..].
  destruct (module_file m) as [from_module|]; [|done].
  rewrite bind_run in Hrun. unfold abspath_of_parts in Hrun.
  destruct (_remove_junk_start_of_path from_module) as [|a rest]; [done|].
  injection Hrun as <- _. eauto.
Qed.

Section MethodsKeep.
Context `{PathLib} (w : World) (P : Resolver → Prop) (safe : string → Prop).

(** [P] admits what [add_python_file] adds for a safe file: the file
    and the initializer next to it. *)
Hypothesis P_add_python_file : ∀ filepath files self,
  safe filepath → P self →
  (∀ f, f ∈ files →
        f ∈ included_files_absolute_paths self ∨ f = filepath
        ∨ f = os_path_join (os_path_dirname filepath) "__init__.py") →
  P (set_included_files files self).
(** [P] admits the walk of a safe file. *)
Hypothesis P_walked : ∀ filepath self,
  safe filepath → P self →
  P (set_walk_log (walk_log self ++ [Walked filepath]) self).
(** [P] admits the entry of a distribution that is not included yet,
    at a safe file. *)
Hypothesis P_distribution_entry : ∀ name filepath self,
  safe filepath → P self → name ∉ included_packages_names self →
  P (set_walk_log (walk_log self ++ [DistributionEntry name filepath])
       (set_included_packages_names ({[ name ]} ∪ included_packages_names self) self)).
(** The file that the compiled-extension block passes on is safe when
    the absolute path it was given does not contain the path of the base
    libraries. *)
Hypothesis safe_resolved : ∀ self x filepath s s',
  P self →
  Str.contains (python_base_libs_folder_path w) (os_path_abspath (getcwd w) x) = false →
  adapt_compiled_extension w self (os_path_abspath (getcwd w) x) s
  = (Returned (GoOn filepath), s') →
  safe filepath.

Lemma keeps_add_python_file (filepath : string) :
  safe filepath → keeps P (add_python_file w filepath).
Proof.
  intros Hsafe self Hself.
  destruct (add_python_file_run w filepath self) as (files & -> & _ & _ & Hfiles).
  by apply (P_add_python_file filepath).
Qed.

Lemma keeps__import_module (module_name filepath : string) :
  keeps P (_import_module w module_name filepath).
Proof.
  unfold _import_module.
  destruct (import_module w module_name); [apply keeps_ret| |apply keeps_raise].
  destruct (os_path_relpath _ _ _); [|apply keeps_raise].
  destruct (module_from_file_location w _ _);
    [apply keeps_ret | apply keeps_ret | apply keeps_raise].
Qed.

Lemma keeps_imported_package_module_filepath (package_name current_filepath : string) :
  keeps P (imported_package_module_filepath w package_name current_filepath).
Proof.
  unfold imported_package_module_filepath.
  apply keeps_bind; [apply keeps__import_module|].
  intros [m|]; [|apply keeps_ret].
  destruct (module_file m); [|apply keeps_ret].
  apply keeps_bind; [|intros; apply keeps_ret].
  unfold abspath_of_parts.
  destruct (_remove_junk_start_of_path _); [apply keeps_raise | apply keeps_ret].
Qed.

Lemma keeps_adapt_compiled_extension (self : Resolver) (filepath : string) :
  keeps P (adapt_compiled_extension w self filepath).
Proof.
  unfold adapt_compiled_extension.
  repeat first
    [ apply keeps_ret | apply keeps_raise
    | match goal with
      | |- keeps _ (if ?b then _ else _) => destruct b
      | |- keeps _ (match ?o with Some _ => _ | None => _ end) => destruct o
      end ].
Qed.

Lemma keeps_fold_package (process_file : string → M unit) (filepath : string) :
  safe filepath →
  (∀ filepath', safe filepath' → keeps P (process_file filepath')) →
  keeps P (fold_package w process_file filepath).
Proof.
  intros Hsafe Hprocess self Hself. unfold fold_package.
  rewrite bind_run. simpl.
  destruct (get_distribution_name_of_package filepath) as [folder|].
  - destruct (packages_distributions self !! folder) as [[|name rest]|]; [done| |done].
    case_bool_decide as Hnew; [|done].
    rewrite !bind_run. simpl.
    apply Hprocess; [done|].
    exact (P_distribution_entry name filepath self Hsafe Hself Hnew).
  - case_bool_decide; [|done].
    apply keeps_bind;
      [by apply keeps_add_python_file | by intros _; apply Hprocess | done].
Qed.

Lemma keeps_add_package_by_name_with (process_file : string → M unit)
    (package_name current_filepath : string) :
  (∀ filepath, safe filepath → keeps P (process_file filepath)) →
  keeps P (add_package_by_name_with w process_file package_name current_filepath).
Proof.
  intros Hprocess. unfold add_package_by_name_with.
  eapply keeps_bind_yields;
    [ apply keeps_imported_package_module_filepath
    | apply yields_imported_package_module_filepath | ].
  intros [filepath|] Hform; [|apply keeps_ret].
  destruct (Hform filepath eq_refl) as [x ->].
  destruct (Str.contains _ _) eqn:Hbase; [apply keeps_ret|].
  intros self Hself. rewrite bind_run. simpl.
  eapply (keeps_bind_yields P _ _ (λ adapted, ∀ filepath, adapted = GoOn filepath → safe filepath));
    [apply keeps_adapt_compiled_extension | | | exact Hself].
  - intros s adapted s' Hrun filepath ->. by eapply safe_resolved.
  - intros [filepath|] Hsafe; [|apply keeps_ret].
    apply keeps_fold_package; auto.
Qed.

Lemma keeps_process_node (add : string → string → M unit) (node : Node)
    (current_module current_filepath : string) :
  (∀ name filepath, keeps P (add name filepath)) →
  keeps P (process_node add node current_module current_filepath).
Proof.
  intros Hadd. unfold process_node.
  destruct node; simpl; [|apply keeps_ret..].
  apply keeps_for_each. intros name. apply Hadd.
Qed.

Lemma keeps_process_file (fuel : nat) (filepath : string) :
  safe filepath → keeps P (process_file w fuel filepath).
Proof.
  revert filepath. induction fuel as [|fuel IH]; intros filepath Hsafe; simpl.
  - apply keeps_out_of_fuel.
  - destruct (fs_exists w (path_str filepath)); simpl; [|apply keeps_raise].
    apply keeps_bind;
      [apply keeps_modify; intros self; by apply P_walked | intros _].
    destruct (String.eqb _ _); [|by apply keeps_add_python_file].
    destruct (file_nodes w (path_str filepath)) as [nodes|]; [|apply keeps_raise].
    apply keeps_for_each. intros node.
    apply keeps_process_node. intros name current.
    by apply keeps_add_package_by_name_with.
Qed.

Lemma keeps_add_package_by_name (fuel : nat) (package_name current_filepath : string) :
  keeps P (add_package_by_name w fuel package_name current_filepath).
Proof.
  apply keeps_add_package_by_name_with. intros filepath. apply keeps_process_file.
Qed.

Lemma keeps_import_folder_walk (excluded_folders_names excluded_files_extensions
    : option (list string)) (t : FolderTree) :
  (∀ filepath, safe filepath) →
  ∀ root_dirpath,
    keeps P (import_folder_walk w excluded_folders_names
               excluded_files_extensions root_dirpath t).
Proof.
  intros Hsafe.
  induction t as [name dirs filenames IH] using FolderTree_nested_ind.
  intros root_dirpath. simpl.
  apply keeps_bind; [apply keeps_map_each; intros; apply keeps_not_in | intros kept].
  apply keeps_bind.
  { apply keeps_for_each. intros filename.
    apply keeps_bind; [apply keeps_not_in | intros [|]];
      [apply keeps_add_python_file, Hsafe | apply keeps_ret]. }
  intros _. revert kept.
  induction IH as [|d dirs Hd _ IHdirs]; intros kept; [apply keeps_ret|].
  destruct kept as [|k kept]; [apply keeps_ret|].
  apply keeps_bind; [|intros _; apply IHdirs].
  destruct k; [apply Hd | apply keeps_ret].
Qed.

Lemma keeps_import_folder (folderpath : string)
    (excluded_folders_names excluded_files_extensions : option (list string)) :
  (∀ filepath, safe filepath) →
  keeps P (import_folder w folderpath excluded_folders_names
             excluded_files_extensions).
Proof.
  intros Hsafe. unfold import_folder.
  destruct (folder_tree w folderpath);
    [by apply keeps_import_folder_walk | apply keeps_ret].
Qed.

End MethodsKeep.

(** ** Bulk import *)

Lemma returns_ret {A} (a : A) : returns (mret a).
Proof. intros self. by exists a, self. Qed.

Lemma returns_bind {A B} (m : M A) (f : A → M B) :
  returns m → (∀ a, returns (f a)) → returns (m ≫= f).
Proof.
  intros Hm Hf self. destruct (Hm self) as (a & self' & Hrun).
  rewrite (bind_returned _ _ _ _ _ Hrun). apply Hf.
Qed.

Lemma returns_for_each {A} (l : list A) (body : A → M unit) :
  (∀ x, returns (body x)) → returns (for_each l body).
Proof.
  intros Hbody. induction l as [|x l IH]; simpl; [apply returns_ret|].
  apply returns_bind; [apply Hbody | by intros _].
Qed.

Lemma returns_map_each {A B} (l : list A) (f : A → M B) :
  (∀ x, returns (f x)) → returns (map_each l f).
Proof.
  intros Hf. induction l as [|x l IH]; simpl; [apply returns_ret|].
  apply returns_bind; [apply Hf | intros y].
  apply returns_bind; [apply IH | intros ys; apply returns_ret].
Qed.

Lemma returns_add_python_file `{PathLib} (w : World) (filepath : string) :
  returns (add_python_file w filepath).
Proof.
  intros self. destruct (add_python_file_run w filepath self) as (files & Hrun & _).
  eauto.
Qed.

Lemma returns_import_folder_walk `{PathLib} (w : World)
    (excluded_folders_names excluded_files_extensions : list string)
    (t : FolderTree) :
  ∀ root_dirpath,
    returns (import_folder_walk w (Some excluded_folders_names)
               (Some excluded_files_extensions) root_dirpath t).
Proof.
  induction t as [name dirs filenames IH] using FolderTree_nested_ind.
  intros root_dirpath. simpl.
  apply returns_bind; [apply returns_map_each; intros; apply returns_ret | intros kept].
  apply returns_bind.
  { apply returns_for_each. intros filename.
    apply returns_bind; [apply returns_ret | intros [|]];
      [apply returns_add_python_file | apply returns_ret]. }
  intros _. revert kept.
  induction IH as [|d dirs Hd _ IHdirs]; intros kept; [apply returns_ret|].
  destruct kept as [|k kept]; [apply returns_ret|].
  apply returns_bind; [|intros _; apply IHdirs].
  destruct k; [apply Hd | apply returns_ret].
Qed.

(** C9: with the default exclusion arguments, [import_folder] raises
    [TypeError] for every folder that has a sub-directory or a file,
    before anything is added; with two exclusion lists it returns. *)
Theorem import_folder_needs_explicit_exclusions `{PathLib} (w : World)
    (folderpath name : string) (dirs : list FolderTree) (filenames : list string)
    (self : Resolver) :
  folder_tree w folderpath = Some (Folder name dirs filenames) →
  dirs ≠ [] ∨ filenames ≠ [] →
  import_folder w folderpath None None self = (Raised TypeError, self)
  ∧ ∀ excluded_folders_names excluded_files_extensions,
      ∃ self',
        import_folder w folderpath (Some excluded_folders_names)
          (Some excluded_files_extensions) self = (Returned tt, self').
Proof.
  intros Htree Hnonempty. unfold import_folder. rewrite Htree. split.
  - destruct dirs as [|d dirs]; [|done].
    destruct filenames as [|filename filenames]; [by destruct Hnonempty|done].
  - intros excluded_folders_names excluded_files_extensions.
    destruct (returns_import_folder_walk w excluded_folders_names
                excluded_files_extensions (Folder name dirs filenames)
                folderpath self) as ([] & self' & Hrun).
    by exists self'.
Qed.

(** ** The distribution walk *)

Lemma walked_once_included_files (files : gset string) (self : Resolver) :
  walked_once self → walked_once (set_included_files files self).
Proof. done. Qed.

Lemma walked_once_walked (filepath : string) (self : Resolver) :
  walked_once self →
  walked_once (set_walk_log (walk_log self ++ [Walked filepath]) self).
Proof.
  unfold walked_once, distribution_entries. simpl.
  rewrite omap_app. simpl. by rewrite app_nil_r.
Qed.

Lemma walked_once_distribution_entry (name filepath : string) (self : Resolver) :
  walked_once self → name ∉ included_packages_names self →
  walked_once
    (set_walk_log (walk_log self ++ [DistributionEntry name filepath])
       (set_included_packages_names ({[ name ]} ∪ included_packages_names self) self)).
Proof.
  unfold walked_once, distribution_entries. simpl.
  intros [Hnodup Hincluded] Hnew. rewrite omap_app. simpl. split.
  - apply NoDup_app. split; [done|]. split; [|apply NoDup_singleton].
    intros name' Hin ->%list_elem_of_singleton. by apply Hnew, Hincluded.
  - intros name'. rewrite elem_of_app, list_elem_of_singleton, Hincluded.
    set_solver.
Qed.

Section RunsFacts.
Context `{PathLib} (w : World).

Lemma add_package_by_name_resolved (fuel : nat) (self : Resolver)
    (package_name current_filepath filepath name : string) :
  resolves_into_distribution w self package_name current_filepath filepath name →
  add_package_by_name w fuel package_name current_filepath self
  = if bool_decide (name ∉ included_packages_names self)
    then process_file w fuel filepath
           (set_walk_log (walk_log self ++ [DistributionEntry name filepath])
              (set_included_packages_names
                 ({[ name ]} ∪ included_packages_names self) self))
    else (Returned tt, self).
Proof.
  intros (resolved & folder & others & Himported & Hbase & Hadapt & Hfolder & Hname).
  unfold add_package_by_name, add_package_by_name_with.
  rewrite (bind_returned _ _ _ _ _ Himported), Hbase.
  rewrite bind_run. simpl.
  rewrite (bind_returned _ _ _ _ _ Hadapt).
  unfold fold_package. rewrite bind_run. simpl.
  rewrite Hfolder, Hname.
  by case_bool_decide.
Qed.

Lemma walked_once_run_operation (fuel : nat) (op : Operation) :
  keeps walked_once (run_operation w fuel op).
Proof.
  destruct op; simpl;
    [ apply (keeps_process_file w walked_once (λ _, True))
    | apply (keeps_add_package_by_name w walked_once (λ _, True))
    | apply (keeps_add_python_file w walked_once (λ _, True))
    | apply (keeps_import_folder w walked_once (λ _, True)) ];
    auto using walked_once_included_files, walked_once_walked,
               walked_once_distribution_entry.
Qed.

Lemma walked_once_resolver_after (calls : list (nat * Operation)) (self : Resolver) :
  walked_once self → walked_once (resolver_after w calls self).
Proof.
  revert self. induction calls as [|[fuel op] calls IH]; intros self Hself; [done|].
  simpl. apply IH. by apply walked_once_run_operation.
Qed.

(** C5: in a run (a resolver as constructed, then any sequence of
    calls), every distribution has one entry at most among the entry
    files handed to [process_file] by the distribution branch, the
    distributions with an entry being the included packages; and once
    a distribution is among the included packages, an import that
    resolves into it returns with the resolver as it was. *)
Theorem distribution_walked_at_most_once (root : string) (target : option string)
    (is_verbose : bool) (self : Resolver) (calls : list (nat * Operation)) :
  __init__ w root target is_verbose = inr self →
  let self' := resolver_after w calls self in
  NoDup (distribution_entries (walk_log self'))
  ∧ (∀ name, name ∈ distribution_entries (walk_log self')
             ↔ name ∈ included_packages_names self')
  ∧ (∀ fuel package_name current_filepath filepath name,
       name ∈ included_packages_names self' →
       resolves_into_distribution w self' package_name current_filepath
         filepath name →
       add_package_by_name w fuel package_name current_filepath self'
       = (Returned tt, self')).
Proof.
  intros Hinit self'.
  assert (walked_once self) as Hself.
  { unfold __init__ in Hinit. case_bool_decide; [|done].
    injection Hinit as <-. split; simpl; [apply NoDup_nil_2 | set_solver]. }
  destruct (walked_once_resolver_after calls self Hself) as [Hnodup Hincluded].
  split; [done|]. split; [done|].
  intros fuel package_name current_filepath filepath name Hin Hresolves.
  rewrite (add_package_by_name_resolved _ _ _ _ _ _ Hresolves).
  by rewrite bool_decide_eq_false_2 by (by intros Hnot).
Qed.

End RunsFacts.

Example venv_run_walk_log :
  walk_log (process_file (H:=posix_pathlib) Examples.venv_world 5 "/proj/main.py"
              Examples.venv_resolver).2
  = [Walked "/proj/main.py";
     DistributionEntry "requests"
       "/venv/lib/python3.8/site-packages/requests/__init__.py";
     Walked "/venv/lib/python3.8/site-packages/requests/__init__.py"].
Proof. vm_compute. reflexivity. Qed.

Lemma distribution_walked_at_most_once_witness :
  let self' :=
    resolver_after (H:=posix_pathlib) Examples.venv_world
      [(5, ProcessFile "/proj/main.py")] Examples.venv_resolver in
  NoDup (distribution_entries (walk_log self'))
  ∧ (∀ name, name ∈ distribution_entries (walk_log self')
             ↔ name ∈ included_packages_names self')
  ∧ (∀ fuel package_name current_filepath filepath name,
       name ∈ included_packages_names self' →
       resolves_into_distribution (H:=posix_pathlib) Examples.venv_world self'
         package_name current_filepath filepath name →
       add_package_by_name (H:=posix_pathlib) Examples.venv_world fuel
         package_name current_filepath self'
       = (Returned tt, self')).
Proof.
  apply (distribution_walked_at_most_once (H:=posix_pathlib) Examples.venv_world
           "/proj/main.py" (Some "linux") false Examples.venv_resolver
           [(5, ProcessFile "/proj/main.py")]).
  reflexivity.
Defined.

Lemma import_folder_needs_explicit_exclusions_witness :
  import_folder (H:=posix_pathlib) Examples.linux_world "/proj" None None
    Examples.linux_resolver
  = (Raised TypeError, Examples.linux_resolver)
  ∧ ∀ excluded_folders_names excluded_files_extensions,
      ∃ self',
        import_folder (H:=posix_pathlib) Examples.linux_world "/proj"
          (Some excluded_folders_names) (Some excluded_files_extensions)
          Examples.linux_resolver
        = (Returned tt, self').
Proof.
  apply (import_folder_needs_explicit_exclusions (H:=posix_pathlib)
           Examples.linux_world "/proj" "proj"
           [Folder "ext" [] ["__init__.py"; "fast.so"]] ["main.py"]
           Examples.linux_resolver).
  - reflexivity.
  - left. discriminate.
Defined.

(** ** Standard-library exclusion *)

Lemma append_cons (a : ascii) (s t : string) : String a s +:+ t = String a (s +:+ t).
Proof. reflexivity. Qed.

Lemma append_nil_l (t : string) : "" +:+ t = t.
Proof. reflexivity. Qed.

Lemma append_nil_r (s : string) : s +:+ "" = s.
Proof. induction s as [|a s IH]; [done|]. by rewrite append_cons, IH. Qed.

Lemma append_assoc (s t u : string) : (s +:+ t) +:+ u = s +:+ (t +:+ u).
Proof. induction s as [|a s IH]; [done|]. by rewrite !append_cons, IH. Qed.

Lemma has_char_app (c : ascii) (s t : string) :
  has_char c (s +:+ t) = has_char c s || has_char c t.
Proof.
  induction s as [|a s IH]; [done|].
  rewrite append_cons. simpl. rewrite IH. by rewrite orb_assoc.
Qed.

(** A separator of the left-hand side falls before a tail without separator. *)
Lemma split_before_clean_tail (c : ascii) (x r y z : string) :
  x +:+ String c r = y +:+ z → has_char c z = false →
  ∃ t, y = x +:+ String c t.
Proof.
  revert y. induction x as [|a x IH]; intros y Heq Hz.
  - rewrite append_nil_l in Heq. destruct y as [|b y].
    + rewrite append_nil_l in Heq. subst z. simpl in Hz.
      by rewrite Ascii.eqb_refl in Hz.
    + rewrite append_cons in Heq. injection Heq as <- _. by exists y.
  - rewrite append_cons in Heq. destruct y as [|b y].
    + rewrite append_nil_l in Heq. subst z. simpl in Hz.
      rewrite has_char_app in Hz. simpl in Hz.
      rewrite Ascii.eqb_refl in Hz. simpl in Hz.
      by rewrite !orb_true_r in Hz.
    + rewrite append_cons in Heq. injection Heq as <- Heq.
      destruct (IH y Heq Hz) as [t ->]. by exists t.
Qed.

Lemma substring_prefix (n : nat) (s : string) : ∃ t, s = String.substring 0 n s +:+ t.
Proof.
  revert n. induction s as [|a s IH]; intros [|n]; simpl; try by eexists.
  destruct (IH n) as [t Ht]. exists t. by rewrite append_cons, <- Ht.
Qed.

Lemma rfind_split (c : ascii) (s : string) (i : nat) :
  Str.rfind c s = Some i →
  ∃ u t, s = u +:+ String c t ∧ String.substring 0 (S i) s = u +:+ String c "".
Proof.
  revert i. induction s as [|a s IH]; intros i; simpl; [done|].
  destruct (Str.rfind c s) as [j|] eqn:Hj.
  - intros [= <-]. destruct (IH j eq_refl) as (u & t & Hs & Hsub).
    exists (String a u), t. rewrite !append_cons. split; [by rewrite <- Hs|].
    by rewrite <- Hsub.
  - destruct (Ascii.eqb_spec a c) as [->|]; [|done].
    intros [= <-]. exists "", s. split; [done|]. simpl. by destruct s.
Qed.

Lemma endswith_app_char (c : ascii) (u : string) :
  Str.endswith (String c "") (u +:+ String c "") = true.
Proof.
  induction u as [|a u IH].
  - simpl. by rewrite Ascii.eqb_refl.
  - rewrite append_cons. simpl. rewrite IH. by rewrite orb_true_r.
Qed.

Lemma rstrip_spec (c : ascii) (s : string) :
  ∃ k, s = Str.rstrip c s +:+ repeat_char c k
       ∧ Str.endswith (String c "") (Str.rstrip c s) = false.
Proof.
  induction s as [|a s (k & Hs & Hend)]; [by exists 0|].
  simpl. destruct (Str.rstrip c s) as [|b r] eqn:Hr.
  - destruct (Ascii.eqb_spec a c) as [->|Hne].
    + exists (S k). split; [|done]. rewrite append_nil_l in *. simpl. by rewrite <- Hs.
    + exists k. split; [by rewrite append_cons, <- Hs|].
      simpl. destruct (Ascii.eqb_spec c a); [congruence|done].
  - exists k. split; [by rewrite append_cons, <- Hs|].
    change (Str.endswith (String c "") (String a (String b r)))
      with (String.eqb (String c "") (String a (String b r))
            || Str.endswith (String c "") (String b r)).
    rewrite Hend. simpl. by destruct (Ascii.eqb c a).
Qed.

Lemma lstrip_repeat_char (c : ascii) (k : nat) : Str.lstrip c (repeat_char c k) = "".
Proof. induction k as [|k IH]; [done|]. simpl. by rewrite Ascii.eqb_refl. Qed.

Lemma substring_0_0 (s : string) : String.substring 0 0 s = "".
Proof. by destruct s. Qed.

Lemma is_empty_app_char (u : string) (c : ascii) (t : string) :
  Str.is_empty (u +:+ String c t) = false.
Proof. by destruct u. Qed.

(** The initializer path that [add_python_file] builds on a POSIX host
    is a prefix of the file path followed by the initializer's name. *)
Lemma posix_init_path (filepath : string) :
  ∃ y t, Posix.join (Posix.dirname filepath) "__init__.py" = y +:+ "__init__.py"
         ∧ filepath = y +:+ t.
Proof.
  unfold Posix.dirname, Str.take, Posix.sep.
  destruct (Str.rfind "/"%char filepath) as [i|] eqn:Hi.
  - destruct (rfind_split _ _ _ Hi) as (u & t & HP & ->).
    rewrite is_empty_app_char. simpl negb. rewrite andb_true_l.
    destruct (Str.is_empty (Str.lstrip "/"%char (u +:+ String "/"%char "")))
      eqn:Hall; simpl negb; cbv iota.
    + exists (u +:+ String "/"%char ""), t. split.
      * unfold Posix.join. rewrite is_empty_app_char, endswith_app_char. done.
      * by rewrite append_assoc.
    + destruct (rstrip_spec "/"%char (u +:+ String "/"%char "")) as (k & Hk & Hend).
      destruct (Str.rstrip "/"%char (u +:+ String "/"%char "")) as [|a d] eqn:Hd.
      { rewrite append_nil_l in Hk. rewrite Hk, lstrip_repeat_char in Hall. done. }
      destruct k as [|k].
      { rewrite append_nil_r in Hk. rewrite <- Hk, endswith_app_char in Hend. done. }
      exists (String a d +:+ String "/"%char ""), (repeat_char "/"%char k +:+ t).
      split.
      * unfold Posix.join. rewrite Hend.
        change (Str.startswith "/" "__init__.py") with false.
        change (Str.is_empty (String a d)) with false.
        by rewrite append_assoc.
      * rewrite HP. rewrite <- (append_nil_l t) at 1.
        change (String "/"%char ("" +:+ t)) with (String "/"%char "" +:+ t).
        rewrite <- append_assoc, Hk. simpl repeat_char.
        rewrite !append_assoc. done.
  - exists "", filepath. by rewrite substring_0_0.
Qed.

Lemma posix_outside (base filepath : string) :
  Str.contains base filepath = false →
  ¬ located_under (H:=posix_pathlib) base filepath
  ∧ ¬ located_under (H:=posix_pathlib) base
        (Posix.join (Posix.dirname filepath) "__init__.py").
Proof.
  intros Hbase. split.
  - intros Hunder. by rewrite (located_under_contains _ _ Hunder) in Hbase.
  - intros [rest Hrest].
    destruct (posix_init_path filepath) as (y & t & Hjoin & HP).
    rewrite Hjoin in Hrest.
    destruct (split_before_clean_tail _ base rest y "__init__.py" (eq_sym Hrest) eq_refl)
      as [t' ->].
    rewrite HP, append_assoc in Hbase.
    by rewrite contains_prefix in Hbase by apply prefix_app.
Qed.

Section BaseLibsExcluded.
Context `{PathLib} (w : World) (os : string).

(** The path library keeps a file that does not contain the path of the
    base libraries, and its initializer, outside of them. *)
Hypothesis outside_when_not_contained : ∀ filepath,
  Str.contains (python_base_libs_folder_path w) filepath = false →
  outside_base_libs w filepath.
(** On a Windows host, so does the change of suffix of an absolute path. *)
Hypothesis outside_with_suffix : os = "windows" → ∀ x so_path,
  Str.contains (python_base_libs_folder_path w) (os_path_abspath (getcwd w) x) = false →
  path_with_suffix (os_path_abspath (getcwd w) x) ".so" = Some so_path →
  outside_base_libs w so_path.

Lemma adapt_compiled_extension_go_on (self s s' : Resolver) (filepath adapted : string) :
  adapt_compiled_extension w self filepath s = (Returned (GoOn adapted), s') →
  adapted = filepath
  ∨ (system_os self = "windows" ∧ path_with_suffix filepath ".so" = Some adapted).
Proof.
  unfold adapt_compiled_extension, path_eq_str, mret, M_ret, raise.
  rewrite andb_false_r.
  destruct (String.eqb_spec (system_os self) "windows") as [Hos|_]; simpl;
    [|intros ?; simplify_eq; by left].
  destruct (String.eqb _ ".pyd"); simpl; [|intros ?; simplify_eq; by left].
  destruct (String.eqb _ "linux"); [|intros ?; simplify_eq; by left].
  destruct (path_with_suffix filepath ".so") as [so_path|]; [|done].
  destruct (fs_is_file w so_path); simpl; [intros ?; simplify_eq; by right|].
  by destruct (make_no_os_matching_file_warning_message _ _ _).
Qed.

Lemma base_libs_excluded_add_python_file (filepath : string) (files : gset string)
    (self : Resolver) :
  outside_base_libs w filepath → base_libs_excluded w os self →
  (∀ f, f ∈ files →
        f ∈ included_files_absolute_paths self ∨ f = filepath
        ∨ f = os_path_join (os_path_dirname filepath) "__init__.py") →
  base_libs_excluded w os (set_included_files files self).
Proof.
  intros [Hfile Hinit] (Hos & Hfiles & Hlog) Hadded.
  split; [done|]. split; [|done].
  intros f [Hf | [-> | ->]]%Hadded; [by apply Hfiles | done | done].
Qed.

Lemma base_libs_excluded_log (event : WalkEvent) (self : Resolver) :
  ¬ located_under (python_base_libs_folder_path w) (walk_event_filepath event) →
  base_libs_excluded w os self →
  base_libs_excluded w os (set_walk_log (walk_log self ++ [event]) self).
Proof.
  intros Hevent (Hos & Hfiles & Hlog).
  split; [done|]. split; [done|]. simpl.
  intros event' [Hin | ->%list_elem_of_singleton]%elem_of_app; [by apply Hlog | done].
Qed.

Lemma base_libs_excluded_distribution_entry (name filepath : string) (self : Resolver) :
  outside_base_libs w filepath → base_libs_excluded w os self →
  base_libs_excluded w os
    (set_walk_log (walk_log self ++ [DistributionEntry name filepath])
       (set_included_packages_names ({[ name ]} ∪ included_packages_names self) self)).
Proof.
  intros [Hfile _] (Hos & Hfiles & Hlog).
  exact (base_libs_excluded_log (DistributionEntry name filepath)
           (set_included_packages_names ({[ name ]} ∪ included_packages_names self) self)
           Hfile (conj Hos (conj Hfiles Hlog))).
Qed.

Lemma base_libs_excluded_resolved (self s s' : Resolver) (x filepath : string) :
  base_libs_excluded w os self →
  Str.contains (python_base_libs_folder_path w) (os_path_abspath (getcwd w) x) = false →
  adapt_compiled_extension w self (os_path_abspath (getcwd w) x) s
  = (Returned (GoOn filepath), s') →
  outside_base_libs w filepath.
Proof.
  intros (Hos & _) Hbase [-> | [Hwindows Hsuffix]]%adapt_compiled_extension_go_on.
  - by apply outside_when_not_contained.
  - apply (outside_with_suffix (eq_trans (eq_sym Hos) Hwindows) x); done.
Qed.

Lemma base_libs_excluded_walked (filepath : string) (self : Resolver) :
  outside_base_libs w filepath → base_libs_excluded w os self →
  base_libs_excluded w os (set_walk_log (walk_log self ++ [Walked filepath]) self).
Proof. intros [Hfile _]. by apply (base_libs_excluded_log (Walked filepath)). Qed.

Lemma base_libs_excluded_run_operation (call : nat * Operation) :
  walker_call w call → keeps (base_libs_excluded w os) (run_operation w call.1 call.2).
Proof.
  destruct call as [fuel [fp | name current | fp | folder excluded1 excluded2]];
    unfold walker_call; simpl; intros Hcall;
    [ apply (keeps_process_file w _ (outside_base_libs w))
    | apply (keeps_add_package_by_name w _ (outside_base_libs w))
    | apply (keeps_add_python_file w _ (outside_base_libs w))
    | done ];
    eauto using base_libs_excluded_add_python_file, base_libs_excluded_resolved,
                base_libs_excluded_distribution_entry, base_libs_excluded_walked.
Qed.

Lemma base_libs_excluded_resolver_after (calls : list (nat * Operation))
    (self : Resolver) :
  Forall (walker_call w) calls →
  base_libs_excluded w os self →
  base_libs_excluded w os (resolver_after w calls self).
Proof.
  intros Hcalls. revert self.
  induction Hcalls as [|call calls Hcall _ IH]; intros self Hself; [done|].
  simpl. apply IH. by apply base_libs_excluded_run_operation.
Qed.

End BaseLibsExcluded.

(** C6: from a resolver constructed on a root file outside the base
    libraries, whatever imports the walker resolves and whatever files
    outside the base libraries it is handed, no included file and no
    walked file lies under the folder of the host's base libraries; and
    an import that resolves to a file under that folder returns at once
    with the resolver as it was.  The path library is asked to keep the
    initializer path of a file, and on a Windows host the path with the
    suffix changed, outside the base libraries when the path itself does
    not contain their path; [posix_outside] proves the first for the
    POSIX library. *)
Theorem base_libs_never_included `{PathLib} (w : World) (root : string)
    (target : option string) (is_verbose : bool) (self : Resolver)
    (calls : list (nat * Operation)) :
  __init__ w root target is_verbose = inr self →
  (∀ filepath,
     Str.contains (python_base_libs_folder_path w) filepath = false →
     outside_base_libs w filepath) →
  (system_os self = "windows" → ∀ x so_path,
     Str.contains (python_base_libs_folder_path w) (os_path_abspath (getcwd w) x) = false →
     path_with_suffix (os_path_abspath (getcwd w) x) ".so" = Some so_path →
     outside_base_libs w so_path) →
  ¬ located_under (python_base_libs_folder_path w) root →
  Forall (walker_call w) calls →
  let self' := resolver_after w calls self in
  (∀ f, f ∈ included_files_absolute_paths self' →
        ¬ located_under (python_base_libs_folder_path w) f)
  ∧ (∀ event, event ∈ walk_log self' →
              ¬ located_under (python_base_libs_folder_path w)
                  (walk_event_filepath event))
  ∧ (∀ fuel package_name current_filepath filepath,
       imported_package_module_filepath w package_name current_filepath self'
       = (Returned (Some filepath), self') →
       located_under (python_base_libs_folder_path w) filepath →
       add_package_by_name w fuel package_name current_filepath self'
       = (Returned tt, self')).
Proof.
  intros Hinit Hjoin Hsuffix Hroot Hcalls self'.
  assert (base_libs_excluded w (system_os self) self) as Hself.
  { unfold __init__ in Hinit. case_bool_decide; [|done].
    injection Hinit as <-. split; [done|]. simpl. split.
    - by intros f ->%elem_of_singleton.
    - by intros event Hin%elem_of_nil. }
  destruct (base_libs_excluded_resolver_after w (system_os self) Hjoin Hsuffix
              calls self Hcalls Hself) as (_ & Hfiles & Hlog).
  split; [done|]. split; [done|].
  intros fuel package_name current_filepath filepath.
  apply add_package_by_name_skips_base_libs.
Qed.

Lemma base_libs_never_included_witness :
  let self' :=
    resolver_after (H:=posix_pathlib) Examples.linux_world
      [(5, ProcessFile "/proj/main.py"); (5, AddPackageByName "os" "/proj/main.py")]
      Examples.linux_resolver in
  (∀ f, f ∈ included_files_absolute_paths self' →
        ¬ located_under (H:=posix_pathlib) "/usr/lib" f)
  ∧ (∀ event, event ∈ walk_log self' →
              ¬ located_under (H:=posix_pathlib) "/usr/lib"
                  (walk_event_filepath event))
  ∧ (∀ fuel package_name current_filepath filepath,
       imported_package_module_filepath (H:=posix_pathlib) Examples.linux_world
         package_name current_filepath self'
       = (Returned (Some filepath), self') →
       located_under (H:=posix_pathlib) "/usr/lib" filepath →
       add_package_by_name (H:=posix_pathlib) Examples.linux_world fuel
         package_name current_filepath self'
       = (Returned tt, self')).
Proof.
  apply (base_libs_never_included (H:=posix_pathlib) Examples.linux_world
           "/proj/main.py" (Some "windows") false).
  - reflexivity.
  - intros filepath. apply posix_outside.
  - discriminate.
  - intros [rest Hrest]. discriminate Hrest.
  - repeat constructor; apply posix_outside; reflexivity.
Defined.

(** ** More on the path algebra *)

Section PathAlgebraMore.
Context `{PathLib}.

Lemma consume_base_path_parts_past_end (source base cleaned : list string)
    (i : nat) (matching : bool) :
  length source ≤ i →
  consume_base_path_parts source i base cleaned matching = cleaned.
Proof.
  revert i. induction base as [|b base IH]; intros i Hi; simpl; [done|].
  replace (i <? length source) with false by (symmetry; apply Nat.ltb_ge; lia).
  apply IH. lia.
Qed.

Lemma consume_base_path_parts_mismatched (source base cleaned : list string)
    (i : nat) :
  consume_base_path_parts source i base cleaned false = cleaned.
Proof.
  revert i. induction base as [|b base IH]; intros i; simpl; [done|].
  destruct (i <? length source); apply IH.
Qed.

Lemma consume_base_path_parts_matching (source base : list string) (i : nat) :
  consume_base_path_parts source i base (drop i source) true
  = drop (i + matching_prefix_length base (drop i source)) source.
Proof.
  revert i. induction base as [|b base IH]; intros i; simpl.
  { by rewrite Nat.add_0_r. }
  destruct (Nat.ltb_spec i (length source)) as [Hi|Hi].
  - destruct (lookup_lt_is_Some_2 source i Hi) as [m Hm].
    rewrite (drop_S _ _ _ Hm), Hm.
    destruct (String.eqb_spec b m) as [->|Hne].
    + rewrite bool_decide_eq_true_2 by done.
      replace (i + 1) with (S i) by lia. rewrite IH.
      by rewrite Nat.add_succ_r.
    + rewrite bool_decide_eq_false_2 by congruence.
      rewrite consume_base_path_parts_mismatched, Nat.add_0_r.
      by rewrite <- (drop_S _ _ _ Hm).
  - rewrite consume_base_path_parts_past_end by lia.
    rewrite (drop_ge source i) by lia. simpl.
    by rewrite Nat.add_0_r, drop_ge by lia.
Qed.

(** X1: [_path_to_module_path] drops the first segment of the module
    name, then as many further segments as agree, position by position,
    with the parts of the base path after its first; what is left is
    joined with dots. *)
Theorem path_to_module_path_drops_matching_prefix
    (base_path module_name module_package : string)
    (cleaned_base_path_parts : list string) :
  _remove_junk_start_of_path base_path = module_package :: cleaned_base_path_parts →
  let source := drop 1 (path_parts (Str.replace "." "/" module_name)) in
  _path_to_module_path base_path module_name
  = Some (Str.join "."
            (drop (matching_prefix_length cleaned_base_path_parts source) source)).
Proof.
  intros Hjunk source. unfold _path_to_module_path. rewrite Hjunk.
  fold source.
  pose proof (consume_base_path_parts_matching source cleaned_base_path_parts 0)
    as Hloop.
  rewrite drop_0 in Hloop. by rewrite Hloop.
Qed.

(** X2: [_path_to_module_path] returns [None] exactly when nothing is
    left of the base path after the junk start is removed; and for a
    module name of one segment it returns the empty string, whatever the
    base path. *)
Theorem path_to_module_path_edge_cases (base_path module_name : string) :
  length (path_parts (Str.replace "." "/" module_name)) ≤ 1 →
  (_path_to_module_path base_path module_name = None
   ↔ _remove_junk_start_of_path base_path = [])
  ∧ (_remove_junk_start_of_path base_path ≠ [] →
     _path_to_module_path base_path module_name = Some "").
Proof.
  intros Hone. unfold _path_to_module_path.
  destruct (_remove_junk_start_of_path base_path) as [|pkg base]; [done|].
  split; [done|]. intros _.
  rewrite (drop_ge (path_parts _) 1) by done.
  by rewrite consume_base_path_parts_past_end by (simpl; lia).
Qed.

Lemma scan_parents_parts_found (parents_parts rest : list string) (i : nat)
    (name : string) :
  scan_parents_parts parents_parts i rest = Some name →
  ∃ pre post,
    rest = pre ++ "site-packages" :: post
    ∧ ("site-packages" ∉ pre)
    ∧ i + length pre + 1 < length parents_parts - 1
    ∧ parents_parts !! (i + length pre + 1) = Some name.
Proof.
  revert i. induction rest as [|parent rest IH]; intros i; simpl; [done|].
  destruct (String.eqb_spec parent "site-packages") as [->|Hne].
  - destruct (Nat.ltb_spec (i + 1) (length parents_parts - 1)) as [Hlt|]; [|done].
    intros Hname. exists [], rest. simpl. rewrite Nat.add_0_r.
    split; [done|]. split; [apply not_elem_of_nil|]. done.
  - intros (pre & post & -> & Hpre & Hlt & Hname)%IH.
    exists (parent :: pre), post. simpl.
    split; [done|]. split; [by apply not_elem_of_cons|].
    replace (i + S (length pre) + 1) with (i + 1 + length pre + 1) by lia. done.
Qed.

(** X3: whenever [get_distribution_name_of_package] returns a name, the
    name is the segment right after the first ["site-packages"] segment
    of the path, and segments follow it: it is never the last segment,
    the file's own name. *)
Theorem get_distribution_name_of_package_sound (package_filepath name : string) :
  get_distribution_name_of_package package_filepath = Some name →
  ∃ pre post,
    path_parts package_filepath = pre ++ "site-packages" :: name :: post
    ∧ ("site-packages" ∉ pre)
    ∧ post ≠ [].
Proof.
  unfold get_distribution_name_of_package, path_parents_parts.
  destruct parents_has_parts; [|done].
  intros (pre & post & Hparts & Hpre & Hlt & Hname)%scan_parents_parts_found.
  simpl in *. rewrite Hparts in Hname, Hlt.
  rewrite length_app in Hlt. simpl in Hlt.
  rewrite lookup_app_r in Hname by lia.
  replace (length pre + 1 - length pre) with 1 in Hname by lia.
  destruct post as [|d [|p post]]; simpl in *; [done| lia |].
  injection Hname as ->. exists pre, (p :: post). by rewrite Hparts.
Qed.

End PathAlgebraMore.

Lemma path_to_module_path_drops_matching_prefix_witness :
  _path_to_module_path (H:=posix_pathlib) "../pkg/sub/deep" "pkg.sub.other.mod"
  = Some "other.mod".
Proof.
  apply (path_to_module_path_drops_matching_prefix (H:=posix_pathlib)
           "../pkg/sub/deep" "pkg.sub.other.mod" "pkg" ["sub"; "deep"]).
  reflexivity.
Defined.

Lemma path_to_module_path_edge_cases_witness :
  (_path_to_module_path (H:=posix_pathlib) ".." "helpers" = None
   ↔ _remove_junk_start_of_path (H:=posix_pathlib) ".." = [])
  ∧ (_remove_junk_start_of_path (H:=posix_pathlib) ".." ≠ [] →
     _path_to_module_path (H:=posix_pathlib) ".." "helpers" = Some "").
Proof.
  apply (path_to_module_path_edge_cases (H:=posix_pathlib) ".." "helpers").
  vm_compute. lia.
Defined.

Lemma get_distribution_name_of_package_sound_witness :
  ∃ pre post,
    path_parts (H:=posix_pathlib) "/venv/lib/python3.8/site-packages/requests/api.py"
    = pre ++ "site-packages" :: "requests" :: post
    ∧ ("site-packages" ∉ pre)
    ∧ post ≠ [].
Proof.
  apply (get_distribution_name_of_package_sound (H:=posix_pathlib)).
  reflexivity.
Defined.

Lemma filter_parts_no_dot (components : list string) :
  "." ∉ List.filter (λ x, negb (Str.is_empty x) && negb (String.eqb x "."))
          components.
Proof.
  intros Hin%list_elem_of_In%List.filter_In. by destruct Hin as [_ Hin].
Qed.

Lemma posix_parts_no_dot (path : string) :
  "." ∉ path_parts (H:=posix_pathlib) path.
Proof.
  unfold path_parts. simpl. unfold Posix.parse_parts.
  destruct (Str.is_empty path); [apply not_elem_of_nil|].
  unfold Posix.splitroot.
  destruct (Str.startswith "/" path); [|apply filter_parts_no_dot].
  destruct (Nat.eqb _ 2); simpl;
    (apply not_elem_of_cons; split; [done | apply filter_parts_no_dot]).
Qed.

Lemma nt_parts_no_dot (path : string) :
  "." ∉ path_parts (H:=nt_pathlib) path.
Proof.
  unfold path_parts. simpl. unfold Nt.parse_parts.
  destruct (Str.is_empty path); [apply not_elem_of_nil|].
  unfold Nt.splitroot.
  destruct (Str.replace Nt.altsep Nt.sep path) as [|d [|c rest]];
    [apply filter_parts_no_dot| |].
  - destruct (Str.startswith _ _); simpl;
      [apply not_elem_of_cons; split; [done|]|]; apply filter_parts_no_dot.
  - destruct c as [[] [] [] [] [] [] [] []];
      try destruct (Nt.is_drive_letter d);
      destruct (Str.startswith _ _); cbv [String.append];
      repeat (apply not_elem_of_cons; split; [done|]);
      apply filter_parts_no_dot.
Qed.

(** X4: with the POSIX and the Windows path library a part is never
    ["."], so the one part that [_remove_junk_start_of_path] may remove
    is a leading [".."]: either it returns the parts of the path as they
    are, or the path starts with [".."] and it returns the parts behind
    it. *)
Theorem remove_junk_start_of_path_strips_dotdot_only (path : string) :
  (_remove_junk_start_of_path (H:=posix_pathlib) path
   = path_parts (H:=posix_pathlib) path
   ∨ path_parts (H:=posix_pathlib) path
     = ".." :: _remove_junk_start_of_path (H:=posix_pathlib) path)
  ∧ (_remove_junk_start_of_path (H:=nt_pathlib) path
     = path_parts (H:=nt_pathlib) path
     ∨ path_parts (H:=nt_pathlib) path
       = ".." :: _remove_junk_start_of_path (H:=nt_pathlib) path).
Proof.
  split.
  - pose proof (posix_parts_no_dot path) as Hdot.
    unfold _remove_junk_start_of_path.
    destruct (path_parts (H:=posix_pathlib) path) as [|first rest]; [by left|].
    destruct (String.eqb_spec first ".") as [->|_].
    { destruct Hdot. apply list_elem_of_here. }
    destruct (String.eqb_spec first "..") as [->|_]; [by right | by left].
  - pose proof (nt_parts_no_dot path) as Hdot.
    unfold _remove_junk_start_of_path.
    destruct (path_parts (H:=nt_pathlib) path) as [|first rest]; [by left|].
    destruct (String.eqb_spec first ".") as [->|_].
    { destruct Hdot. apply list_elem_of_here. }
    destruct (String.eqb_spec first "..") as [->|_]; [by right | by left].
Qed.

(** ** What every method keeps *)

Section Steps.
Context (R : Resolver → Resolver → Prop) `{!PreOrder R}.

Lemma steps_ret {A} (a : A) : steps R (mret a).
Proof. intros self. simpl. reflexivity. Qed.

Lemma steps_raise {A} (e : Exn) : steps R (raise (A:=A) e).
Proof. intros self. simpl. reflexivity. Qed.

Lemma steps_out_of_fuel {A} : steps R (out_of_fuel (A:=A)).
Proof. intros self. simpl. reflexivity. Qed.

Lemma steps_get_self : steps R get_self.
Proof. intros self. simpl. reflexivity. Qed.

Lemma steps_bind {A B} (m : M A) (f : A → M B) :
  steps R m → (∀ a, steps R (f a)) → steps R (m ≫= f).
Proof.
  intros Hm Hf self. rewrite bind_run. specialize (Hm self).
  destruct (m self) as [[a| e |] self']; simpl in *; [|done|done].
  etrans; [exact Hm | apply Hf].
Qed.

Lemma steps_for_each {A} (l : list A) (body : A → M unit) :
  (∀ x, steps R (body x)) → steps R (for_each l body).
Proof.
  intros Hbody. induction l as [|x l IH]; simpl; [apply steps_ret|].
  apply steps_bind; [apply Hbody | by intros _].
Qed.

Lemma steps_map_each {A B} (l : list A) (f : A → M B) :
  (∀ x, steps R (f x)) → steps R (map_each l f).
Proof.
  intros Hf. induction l as [|x l IH]; simpl; [apply steps_ret|].
  apply steps_bind; [apply Hf | intros y].
  apply steps_bind; [apply IH | intros ys; apply steps_ret].
Qed.

Lemma steps_not_in (x : string) (container : option (list string)) :
  steps R (not_in x container).
Proof. destruct container; [apply steps_ret | apply steps_raise]. Qed.

End Steps.

Section MethodsStep.
Context `{PathLib} (w : World) (R : Resolver → Resolver → Prop) `{!PreOrder R}.

(** [R] admits more included files. *)
Hypothesis R_files : ∀ files self,
  included_files_absolute_paths self ⊆ files → R self (set_included_files files self).
(** [R] admits one more entry of the walk log. *)
Hypothesis R_walked : ∀ filepath self,
  R self (set_walk_log (walk_log self ++ [Walked filepath]) self).
(** [R] admits one more included package, the first name of an entry of
    the table of distributions, with its entry in the walk log. *)
Hypothesis R_distribution_entry : ∀ folder name others filepath self,
  packages_distributions self !! folder = Some (name :: others) →
  R self
    (set_walk_log (walk_log self ++ [DistributionEntry name filepath])
       (set_included_packages_names ({[ name ]} ∪ included_packages_names self) self)).

Lemma steps_add_python_file (filepath : string) :
  steps R (add_python_file w filepath).
Proof.
  intros self.
  destruct (add_python_file_run w filepath self) as (files & -> & Hfiles & _).
  by apply R_files.
Qed.

Lemma steps__import_module (module_name filepath : string) :
  steps R (_import_module w module_name filepath).
Proof.
  unfold _import_module.
  destruct (import_module w module_name); [apply steps_ret, _| |apply steps_raise, _].
  destruct (os_path_relpath _ _ _); [|apply steps_raise, _].
  destruct (module_from_file_location w _ _);
    [apply steps_ret, _ | apply steps_ret, _ | apply steps_raise, _].
Qed.

Lemma steps_imported_package_module_filepath (package_name current_filepath : string) :
  steps R (imported_package_module_filepath w package_name current_filepath).
Proof.
  unfold imported_package_module_filepath.
  apply steps_bind; [apply _ | apply steps__import_module|].
  intros [m|]; [|apply steps_ret, _].
  destruct (module_file m); [|apply steps_ret, _].
  apply steps_bind; [apply _| |intros; apply steps_ret, _].
  unfold abspath_of_parts.
  destruct (_remove_junk_start_of_path _); [apply steps_raise, _ | apply steps_ret, _].
Qed.

Lemma steps_adapt_compiled_extension (self : Resolver) (filepath : string) :
  steps R (adapt_compiled_extension w self filepath).
Proof.
  unfold adapt_compiled_extension.
  repeat first
    [ apply steps_ret, _ | apply steps_raise, _
    | match goal with
      | |- steps _ (if ?b then _ else _) => destruct b
      | |- steps _ (match ?o with Some _ => _ | None => _ end) => destruct o
      end ].
Qed.

Lemma steps_fold_package (process_file : string → M unit) (filepath : string) :
  (∀ filepath', steps R (process_file filepath')) →
  steps R (fold_package w process_file filepath).
Proof.
  intros Hprocess self. unfold fold_package.
  rewrite bind_run. simpl.
  destruct (get_distribution_name_of_package filepath) as [folder|].
  - destruct (packages_distributions self !! folder) as [[|name rest]|] eqn:Hentry;
      [reflexivity| |reflexivity].
    case_bool_decide as Hnew; [|reflexivity].
    rewrite !bind_run. simpl.
    etrans; [exact (R_distribution_entry folder name rest filepath self Hentry)
            | apply Hprocess].
  - case_bool_decide; [|reflexivity].
    apply steps_bind; [apply _ | apply steps_add_python_file | by intros _].
Qed.

Lemma steps_add_package_by_name_with (process_file : string → M unit)
    (package_name current_filepath : string) :
  (∀ filepath, steps R (process_file filepath)) →
  steps R (add_package_by_name_with w process_file package_name current_filepath).
Proof.
  intros Hprocess. unfold add_package_by_name_with.
  apply steps_bind; [apply _ | apply steps_imported_package_module_filepath|].
  intros [filepath|]; [|apply steps_ret, _].
  destruct (Str.contains _ _); [apply steps_ret, _|].
  apply steps_bind; [apply _ | apply steps_get_self, _ | intros self].
  apply steps_bind;
    [apply _ | apply steps_adapt_compiled_extension | intros [filepath'|]].
  - by apply steps_fold_package.
  - apply steps_ret, _.
Qed.

Lemma steps_process_node (add : string → string → M unit) (node : Node)
    (current_module current_filepath : string) :
  (∀ name filepath, steps R (add name filepath)) →
  steps R (process_node add node current_module current_filepath).
Proof.
  intros Hadd. unfold process_node.
  destruct node; simpl; [|apply steps_ret, _..].
  apply steps_for_each; [apply _|]. intros name. apply Hadd.
Qed.

Lemma steps_process_file (fuel : nat) (filepath : string) :
  steps R (process_file w fuel filepath).
Proof.
  revert filepath. induction fuel as [|fuel IH]; intros filepath; simpl.
  - apply steps_out_of_fuel, _.
  - destruct (fs_exists w (path_str filepath)); simpl; [|apply steps_raise, _].
    apply steps_bind; [apply _ | intros self; apply R_walked | intros _].
    destruct (String.eqb _ _); [|apply steps_add_python_file].
    destruct (file_nodes w (path_str filepath)) as [nodes|]; [|apply steps_raise, _].
    apply steps_for_each; [apply _|]. intros node.
    apply steps_process_node. intros name current.
    by apply steps_add_package_by_name_with.
Qed.

Lemma steps_add_package_by_name (fuel : nat) (package_name current_filepath : string) :
  steps R (add_package_by_name w fuel package_name current_filepath).
Proof. apply steps_add_package_by_name_with, steps_process_file. Qed.

Lemma steps_import_folder_walk (excluded_folders_names excluded_files_extensions
    : option (list string)) (t : FolderTree) :
  ∀ root_dirpath,
    steps R (import_folder_walk w excluded_folders_names
               excluded_files_extensions root_dirpath t).
Proof.
  induction t as [name dirs filenames IH] using FolderTree_nested_ind.
  intros root_dirpath. simpl.
  apply steps_bind;
    [apply _ | apply steps_map_each; [apply _|]; intros; apply steps_not_in, _
    | intros kept].
  apply steps_bind; [apply _| |].
  { apply steps_for_each; [apply _|]. intros filename.
    apply steps_bind; [apply _ | apply steps_not_in, _ | intros [|]];
      [apply steps_add_python_file | apply steps_ret, _]. }
  intros _. revert kept.
  induction IH as [|d dirs Hd _ IHdirs]; intros kept; [apply steps_ret, _|].
  destruct kept as [|k kept]; [apply steps_ret, _|].
  apply steps_bind; [apply _| |intros _; apply IHdirs].
  destruct k; [apply Hd | apply steps_ret, _].
Qed.

Lemma steps_import_folder (folderpath : string)
    (excluded_folders_names excluded_files_extensions : option (list string)) :
  steps R (import_folder w folderpath excluded_folders_names
             excluded_files_extensions).
Proof.
  unfold import_folder.
  destruct (folder_tree w folderpath);
    [apply steps_import_folder_walk | apply steps_ret, _].
Qed.

Lemma steps_run_operation (fuel : nat) (op : Operation) :
  steps R (run_operation w fuel op).
Proof.
  destruct op; simpl;
    [ apply steps_process_file | apply steps_add_package_by_name
    | apply steps_add_python_file | apply steps_import_folder ].
Qed.

Lemma steps_resolver_after (calls : list (nat * Operation)) (self : Resolver) :
  R self (resolver_after w calls self).
Proof.
  revert self. induction calls as [|[fuel op] calls IH]; intros self; [reflexivity|].
  simpl. etrans; [apply (steps_run_operation fuel op) | apply IH].
Qed.

End MethodsStep.

Lemma extends_preorder : PreOrder extends.
Proof.
  split.
  - intros self. by repeat split.
  - intros s1 s2 s3 (?&?&?&?&?&?&?&?) (?&?&?&?&?&?&?&?).
    repeat split; try congruence; try set_solver. by etrans.
Qed.

#[local] Existing Instance extends_preorder.

Lemma extends_files (files : gset string) (self : Resolver) :
  included_files_absolute_paths self ⊆ files → extends self (set_included_files files self).
Proof. intros Hfiles. by repeat split. Qed.

Lemma extends_walked (filepath : string) (self : Resolver) :
  extends self (set_walk_log (walk_log self ++ [Walked filepath]) self).
Proof. repeat split; try done. by apply prefix_app_r. Qed.

Lemma extends_distribution_entry (name filepath : string) (self : Resolver) :
  extends self
    (set_walk_log (walk_log self ++ [DistributionEntry name filepath])
       (set_included_packages_names ({[ name ]} ∪ included_packages_names self) self)).
Proof. repeat split; try done; [set_solver | by apply prefix_app_r]. Qed.

Lemma extends_table_entry (folder name : string) (others : list string)
    (filepath : string) (self : Resolver) :
  packages_distributions self !! folder = Some (name :: others) →
  extends self
    (set_walk_log (walk_log self ++ [DistributionEntry name filepath])
       (set_included_packages_names ({[ name ]} ∪ included_packages_names self) self)).
Proof. intros _. apply extends_distribution_entry. Qed.

(** X5: whatever a client calls, in whatever order and with whatever
    outcome (return, exception, recursion budget spent), the resolver
    keeps its configuration, loses no included file and no included
    package, and its walk log only grows at its end. *)
Theorem resolver_only_grows `{PathLib} (w : World) (calls : list (nat * Operation))
    (self : Resolver) :
  let self' := resolver_after w calls self in
  root_filepath self' = root_filepath self
  ∧ verbose self' = verbose self
  ∧ system_os self' = system_os self
  ∧ target_os self' = target_os self
  ∧ packages_distributions self' = packages_distributions self
  ∧ included_packages_names self ⊆ included_packages_names self'
  ∧ included_files_absolute_paths self ⊆ included_files_absolute_paths self'
  ∧ walk_log self `prefix_of` walk_log self'.
Proof.
  apply (steps_resolver_after w extends extends_files extends_walked
           extends_table_entry).
Qed.

(** ** More on adding files *)

Lemma set_included_files_same (self : Resolver) :
  set_included_files (included_files_absolute_paths self) self = self.
Proof. by destruct self. Qed.

Lemma add_python_file_effect `{PathLib} (w : World) (filepath : string)
    (self : Resolver) :
  let expected_init_filepath :=
    os_path_join (os_path_dirname filepath) "__init__.py" in
  add_python_file w filepath self
  = (Returned tt,
     set_included_files
       ({[ filepath ]}
        ∪ (if fs_exists w expected_init_filepath
           then {[ expected_init_filepath ]} else ∅)
        ∪ included_files_absolute_paths self) self).
Proof.
  intros init. unfold add_python_file, modify. rewrite bind_run. fold init.
  destruct self as [r v so t pd names files log]. simpl.
  destruct (fs_exists w init); repeat case_bool_decide; simpl;
    unfold set_included_files; simpl; do 2 f_equal;
    apply leibniz_equiv; set_solver.
Qed.

(** X6: [add_python_file] never raises and touches the included files
    only: it adds the file, and the [__init__.py] next to it when that
    exists on disk.  Adding the same file again changes nothing. *)
Theorem add_python_file_idempotent `{PathLib} (w : World) (filepath : string)
    (self : Resolver) :
  ∃ self',
    add_python_file w filepath self = (Returned tt, self')
    ∧ self' = set_included_files (included_files_absolute_paths self') self
    ∧ included_files_absolute_paths self'
      = {[ filepath ]}
        ∪ (if fs_exists w (os_path_join (os_path_dirname filepath) "__init__.py")
           then {[ os_path_join (os_path_dirname filepath) "__init__.py" ]}
           else ∅)
        ∪ included_files_absolute_paths self
    ∧ add_python_file w filepath self' = (Returned tt, self').
Proof.
  eexists. split; [apply add_python_file_effect|].
  split; [done|]. split; [done|].
  rewrite add_python_file_effect. f_equal.
  change (set_included_files ?X (set_included_files ?Y self))
    with (set_included_files X self).
  f_equal. simpl. apply leibniz_equiv. destruct (fs_exists w _); set_solver.
Qed.

Lemma adds_files_only_preorder : PreOrder adds_files_only.
Proof.
  split.
  - intros self. exists (included_files_absolute_paths self).
    by rewrite set_included_files_same.
  - intros s1 s2 s3 (files2 & -> & H12) (files3 & -> & H23).
    exists files3. split; [done|]. simpl in H23. set_solver.
Qed.

#[local] Existing Instance adds_files_only_preorder.

(** X7: [import_folder] does no import analysis: whatever the folder
    tree and the exclusion arguments, and also when it raises, it
    leaves a resolver that differs from the one it was called on by its
    included files only, and those include the former ones. *)
Theorem import_folder_adds_files_only `{PathLib} (w : World) (folderpath : string)
    (excluded_folders_names excluded_files_extensions : option (list string))
    (self : Resolver) :
  let self' :=
    (import_folder w folderpath excluded_folders_names excluded_files_extensions
       self).2 in
  included_packages_names self' = included_packages_names self
  ∧ walk_log self' = walk_log self
  ∧ target_os self' = target_os self
  ∧ system_os self' = system_os self
  ∧ included_files_absolute_paths self ⊆ included_files_absolute_paths self'.
Proof.
  intros self'.
  assert (adds_files_only self self') as (files & Hself' & Hfiles).
  { apply (steps_import_folder w adds_files_only).
    intros files0 self0 Hfiles0. by exists files0. }
  by rewrite Hself'.
Qed.

(** ** More on the bulk import *)

Section ImportFolderMore.
Context `{PathLib} (w : World).

Lemma map_each_ret {A B} (l : list A) (g : A → B) (self : Resolver) :
  map_each l (λ x, mret (g x)) self = (Returned (map g l), self).
Proof.
  induction l as [|x l IH]; [done|].
  simpl. rewrite bind_run. simpl. by rewrite bind_run, IH.
Qed.

Lemma for_each_app {A} (l1 l2 : list A) (body : A → M unit) (self : Resolver) :
  for_each (l1 ++ l2) body self
  = (for_each l1 body ≫= λ _, for_each l2 body) self.
Proof.
  revert self. induction l1 as [|x l1 IH]; intros self; simpl; [done|].
  rewrite !bind_run. destruct (body x self) as [[[]| |] self1]; [|done..].
  rewrite IH. by rewrite bind_run.
Qed.

(** The walk of a directory: its files in order, then the
    sub-directories the exclusion list keeps, in order. *)
Lemma import_folder_walk_kept (excluded_folders_names : list string)
    (excluded_files_extensions : option (list string)) (root_dirpath name : string)
    (dirs : list FolderTree) (filenames : list string) (self : Resolver) :
  import_folder_walk w (Some excluded_folders_names) excluded_files_extensions
    root_dirpath (Folder name dirs filenames) self
  = (for_each filenames (λ filename,
       included ← not_in (path_suffix filename) excluded_files_extensions;
       if (included : bool)
       then add_python_file w (os_path_join root_dirpath (path_str filename))
       else mret tt) ≫= λ _,
     for_each (kept_dirs excluded_folders_names dirs) (λ d,
       import_folder_walk w (Some excluded_folders_names) excluded_files_extensions
         (os_path_join root_dirpath (folder_name d)) d)) self.
Proof.
  simpl. rewrite bind_run, map_each_ret. rewrite !bind_run.
  destruct (for_each filenames _ self) as [[[]| |] self1]; [|done..].
  clear self. revert self1. unfold kept_dirs.
  induction dirs as [|d dirs IH]; intros self; simpl; [done|].
  case_bool_decide; simpl.
  - rewrite !bind_run.
    destruct (import_folder_walk w _ _ _ d self) as [[[]| |] self1]; [|done..].
    apply IH.
  - rewrite bind_run. simpl. apply IH.
Qed.

(** X8: a sub-directory whose name is in the exclusion list is pruned
    before the walk descends: the import of the folder is the import of
    the folder without that sub-directory, whatever lies below it. *)
Theorem import_folder_prunes_excluded_dir (excluded_folders_names : list string)
    (excluded_files_extensions : option (list string)) (root_dirpath name : string)
    (before after : list FolderTree) (d : FolderTree) (filenames : list string)
    (self : Resolver) :
  path_name (folder_name d) ∈ excluded_folders_names →
  import_folder_walk w (Some excluded_folders_names) excluded_files_extensions
    root_dirpath (Folder name (before ++ d :: after) filenames) self
  = import_folder_walk w (Some excluded_folders_names) excluded_files_extensions
      root_dirpath (Folder name (before ++ after) filenames) self.
Proof.
  intros Hexcluded. rewrite !import_folder_walk_kept.
  unfold kept_dirs. rewrite !List.filter_app. simpl.
  by rewrite bool_decide_eq_false_2 by (by intros Hnot).
Qed.

(** X9: a file whose suffix is in the list of excluded extensions is
    passed over: the import of the folder is the import of the folder
    without that file. *)
Theorem import_folder_skips_excluded_file (excluded_folders_names : list string)
    (excluded_files_extensions : list string) (root_dirpath name : string)
    (dirs : list FolderTree) (before after : list string) (filename : string)
    (self : Resolver) :
  path_suffix filename ∈ excluded_files_extensions →
  import_folder_walk w (Some excluded_folders_names) (Some excluded_files_extensions)
    root_dirpath (Folder name dirs (before ++ filename :: after)) self
  = import_folder_walk w (Some excluded_folders_names) (Some excluded_files_extensions)
      root_dirpath (Folder name dirs (before ++ after)) self.
Proof.
  intros Hexcluded. rewrite !import_folder_walk_kept, !bind_run.
  rewrite !for_each_app, !bind_run.
  destruct (for_each before _ self) as [[[]| |] self1]; [|done..].
  simpl. rewrite !bind_run. simpl.
  by rewrite bool_decide_eq_false_2 by (by intros Hnot).
Qed.

End ImportFolderMore.

(** ** More on resolving one import *)

Section ResolveMore.
Context `{PathLib} (w : World).

Lemma path_with_suffix_of_suffixed (path suffix : string) :
  Str.contains (String sep EmptyString) suffix = false →
  Str.startswith "." suffix = true →
  suffix ≠ "." →
  path_suffix path ≠ "" →
  is_Some (path_with_suffix path suffix).
Proof.
  intros Hsep Hdot Hnot Hsuffix. unfold path_with_suffix.
  rewrite Hsep, Hdot, andb_false_r. simpl.
  destruct (String.eqb_spec suffix ".") as [|_]; [done|].
  destruct (Str.is_empty (path_name path)) eqn:Hname; [|by eexists].
  unfold path_suffix in Hsuffix.
  apply String.eqb_eq in Hname. rewrite Hname in Hsuffix. done.
Qed.

(** X10: on a host whose path separator is not a character of [".so"],
    the compiled-extension step of [add_package_by_name] never raises
    (neither from the change of suffix nor from the warning message) and
    never modifies the resolver: it hands on a path or ends the
    resolution of the import. *)
Theorem adapt_compiled_extension_returns (self : Resolver) (filepath : string)
    (s : Resolver) :
  Str.contains (String sep EmptyString) ".so" = false →
  ∃ adapted, adapt_compiled_extension w self filepath s = (Returned adapted, s).
Proof.
  intros Hsep. unfold adapt_compiled_extension, path_eq_str.
  rewrite andb_false_r.
  destruct (String.eqb_spec (system_os self) "windows") as [Hos|_]; simpl;
    [|by eexists].
  destruct (String.eqb_spec (path_suffix filepath) ".pyd") as [Hpyd|_]; simpl;
    [|by eexists].
  destruct (String.eqb_spec (target_os self) "linux") as [Htarget|_];
    [|by eexists].
  destruct (path_with_suffix_of_suffixed filepath ".so") as [so_path ->];
    [done | done | done | by rewrite Hpyd |].
  destruct (fs_is_file w so_path); simpl; [by eexists|].
  rewrite Hos, Htarget. by eexists.
Qed.

Lemma for_each_nodes_without_imports (add : string → string → M unit)
    (nodes : list Node) (current_module current_filepath : string) (self : Resolver) :
  Forall (λ node, node_imported_names node = []) nodes →
  for_each nodes (λ node, process_node add node current_module current_filepath) self
  = (Returned tt, self).
Proof.
  intros Hnodes. induction Hnodes as [|node nodes Hnode _ IH]; simpl; [done|].
  rewrite bind_run.
  destruct node as [names| |]; simpl in *; [subst names|..]; simpl; exact IH.
Qed.

Lemma add_package_by_name_with_import_raised (process_file : string → M unit)
    (package_name current_filepath : string) (e : Exn) (self : Resolver) :
  import_module w package_name = ImportRaised e →
  add_package_by_name_with w process_file package_name current_filepath self
  = (Raised e, self).
Proof.
  intros Himport.
  unfold add_package_by_name_with, imported_package_module_filepath.
  rewrite !bind_run. unfold _import_module. by rewrite Himport.
Qed.

(** X11: an import that raises anything but [ModuleNotFoundError] is
    fatal for the walk: [process_file] raises the same exception at the
    first such import of the file, with nothing but the walk of the file
    recorded, and the imports after it are not resolved. *)
Theorem process_file_aborts_on_import_error (fuel : nat) (filepath : string)
    (before rest : list Node) (name : string) (names : list string) (e : Exn)
    (self : Resolver) :
  fs_exists w (path_str filepath) = true →
  path_suffix filepath = ".py" →
  file_nodes w (path_str filepath)
  = Some (before ++ ImportNode (name :: names) :: rest) →
  Forall (λ node, node_imported_names node = []) before →
  import_module w name = ImportRaised e →
  process_file w (S fuel) filepath self
  = (Raised e, set_walk_log (walk_log self ++ [Walked filepath]) self).
Proof.
  intros Hexists Hsuffix Hnodes Hbefore Himport. simpl.
  rewrite Hexists, Hsuffix, Hnodes. simpl. rewrite bind_run. simpl.
  rewrite for_each_app, bind_run, for_each_nodes_without_imports by done.
  simpl. rewrite bind_run. unfold process_node at 1. simpl.
  by rewrite bind_run, (add_package_by_name_with_import_raised _ _ _ e).
Qed.

(** X12: an import that the interpreter does not find by name, and for
    which the import from the file location gives no module either, is
    passed over: [add_package_by_name] returns and the resolver is as
    before. *)
Theorem add_package_by_name_skips_unresolved (fuel : nat)
    (package_name current_filepath relative : string) (self : Resolver) :
  import_module w package_name = ModuleNotFoundError →
  os_path_relpath (getcwd w) current_filepath (argv0 w) = Some relative →
  module_from_file_location w (_path_to_module_path relative package_name) relative
  = FileModule None
  ∨ module_from_file_location w (_path_to_module_path relative package_name) relative
    = FileModuleNotFoundError →
  add_package_by_name w fuel package_name current_filepath self
  = (Returned tt, self).
Proof.
  intros Himport Hrel Hfile.
  unfold add_package_by_name, add_package_by_name_with,
    imported_package_module_filepath, _import_module.
  rewrite Himport, Hrel. by destruct Hfile as [-> | ->].
Qed.

(** X13: when the interpreter does not find an import by name and
    [os.path.relpath] raises [ValueError] for the importing file against
    [sys.argv[0]] (on Windows: the two are on different drives),
    [add_package_by_name] raises that [ValueError]: the fallback import
    is not attempted and the resolver is as before. *)
Theorem add_package_by_name_relpath_error (fuel : nat)
    (package_name current_filepath : string) (self : Resolver) :
  import_module w package_name = ModuleNotFoundError →
  os_path_relpath (getcwd w) current_filepath (argv0 w) = None →
  add_package_by_name w fuel package_name current_filepath self
  = (Raised ValueError, self).
Proof.
  intros Himport Hrel.
  unfold add_package_by_name, add_package_by_name_with,
    imported_package_module_filepath, _import_module.
  by rewrite Himport, Hrel.
Qed.

Lemma add_package_by_name_to_file (process_file : string → M unit)
    (package_name current_filepath filepath : string) (self : Resolver) :
  resolves_to_file w self package_name current_filepath filepath →
  add_package_by_name_with w process_file package_name current_filepath self
  = fold_package w process_file filepath self.
Proof.
  intros (resolved & Himported & Hbase & Hadapt).
  unfold add_package_by_name_with.
  rewrite (bind_returned _ _ _ _ _ Himported), Hbase.
  rewrite bind_run. simpl.
  by rewrite (bind_returned _ _ _ _ _ Hadapt).
Qed.

Lemma process_file_source_without_imports (fuel : nat) (filepath : string)
    (nodes : list Node) (self : Resolver) :
  fs_exists w (path_str filepath) = true →
  path_suffix filepath = ".py" →
  file_nodes w (path_str filepath) = Some nodes →
  Forall (λ node, node_imported_names node = []) nodes →
  process_file w (S fuel) filepath self
  = (Returned tt, set_walk_log (walk_log self ++ [Walked filepath]) self).
Proof.
  intros Hexists Hsuffix Hnodes Hnone. simpl.
  rewrite Hexists, Hsuffix, Hnodes. simpl. rewrite bind_run. simpl.
  by rewrite for_each_nodes_without_imports.
Qed.

(** X14: the first import that resolves into a distribution records the
    distribution and walks the resolved file, but does not add that
    file to the included files: for a source file that imports nothing,
    the included files are as before. *)
Theorem distribution_entry_is_not_included (fuel : nat)
    (package_name current_filepath filepath name : string) (nodes : list Node)
    (self : Resolver) :
  resolves_into_distribution w self package_name current_filepath filepath name →
  name ∉ included_packages_names self →
  fs_exists w (path_str filepath) = true →
  path_suffix filepath = ".py" →
  file_nodes w (path_str filepath) = Some nodes →
  Forall (λ node, node_imported_names node = []) nodes →
  ∃ self',
    add_package_by_name w (S fuel) package_name current_filepath self
    = (Returned tt, self')
    ∧ included_files_absolute_paths self' = included_files_absolute_paths self
    ∧ included_packages_names self' = {[ name ]} ∪ included_packages_names self
    ∧ walk_log self'
      = walk_log self ++ [DistributionEntry name filepath; Walked filepath].
Proof.
  intros Hresolves Hnew Hexists Hsuffix Hnodes Hnone.
  rewrite (add_package_by_name_resolved _ _ _ _ _ _ _ Hresolves).
  rewrite bool_decide_eq_true_2 by done.
  rewrite (process_file_source_without_imports _ _ nodes) by done.
  eexists. split; [done|]. simpl. by rewrite <- app_assoc.
Qed.

(** X15: when an import resolves to a file that is not on disk, the
    walk is aborted with [FilepathDoesNotExist], after the record has
    been made: a local file is among the included files, a distribution
    among the included packages. *)
Theorem add_package_by_name_missing_file (fuel : nat)
    (package_name current_filepath filepath : string) (self : Resolver) :
  fs_exists w (path_str filepath) = false →
  (resolves_to_file w self package_name current_filepath filepath →
   get_distribution_name_of_package filepath = None →
   filepath ∉ included_files_absolute_paths self →
   ∃ self',
     add_package_by_name w (S fuel) package_name current_filepath self
     = (Raised (FilepathDoesNotExist filepath), self')
     ∧ filepath ∈ included_files_absolute_paths self')
  ∧ (∀ name,
       resolves_into_distribution w self package_name current_filepath filepath name →
       name ∉ included_packages_names self →
       ∃ self',
         add_package_by_name w (S fuel) package_name current_filepath self
         = (Raised (FilepathDoesNotExist filepath), self')
         ∧ name ∈ included_packages_names self').
Proof.
  intros Hmissing. split.
  - intros Hresolves Hlocal Hnew.
    unfold add_package_by_name.
    rewrite (add_package_by_name_to_file _ _ _ _ _ Hresolves).
    unfold fold_package. rewrite bind_run. simpl.
    rewrite Hlocal, bool_decide_eq_true_2 by done.
    rewrite bind_run, add_python_file_effect. simpl. rewrite Hmissing. simpl.
    eexists. split; [done|]. simpl. set_solver.
  - intros name Hresolves Hnew.
    rewrite (add_package_by_name_resolved _ _ _ _ _ _ _ Hresolves).
    rewrite bool_decide_eq_true_2 by done. simpl. rewrite Hmissing. simpl.
    eexists. split; [done|]. simpl. set_solver.
Qed.

End ResolveMore.

(** ** An import is resolved once *)

Section ResolvesOnce.
Context `{PathLib} (w : World).

Lemma extends_process_file (fuel : nat) (filepath : string) :
  steps extends (process_file w fuel filepath).
Proof.
  apply (steps_process_file w extends extends_files extends_walked
           extends_table_entry).
Qed.

Lemma extends_add_package_by_name (fuel : nat) (package_name current_filepath : string) :
  steps extends (add_package_by_name w fuel package_name current_filepath).
Proof.
  apply (steps_add_package_by_name w extends extends_files extends_walked
           extends_table_entry).
Qed.

(** The head of [add_package_by_name] neither reads nor writes the
    resolver. *)
Lemma imported_package_module_filepath_pure (package_name current_filepath : string) :
  ∃ o, o ≠ OutOfFuel
       ∧ ∀ self, imported_package_module_filepath w package_name current_filepath self
                 = (o, self).
Proof.
  unfold imported_package_module_filepath, _import_module, abspath_of_parts.
  destruct (import_module w package_name) as [m| |e].
  - destruct (module_file m) as [file|] eqn:Hfile.
    + destruct (_remove_junk_start_of_path file) as [|a rest] eqn:Hparts.
      * exists (Raised TypeError). split; [done|]. intros self.
        rewrite bind_run. simpl. by rewrite Hfile, Hparts.
      * eexists. split; [|intros self; rewrite bind_run; simpl;
                           by rewrite Hfile, Hparts]. done.
    + eexists. split; [|intros self; rewrite bind_run; simpl; by rewrite Hfile].
      done.
  - destruct (os_path_relpath _ _ _) as [relative|].
    + destruct (module_from_file_location w _ relative) as [[m|]| |e].
      * destruct (module_file m) as [file|] eqn:Hfile.
        -- destruct (_remove_junk_start_of_path file) as [|a rest] eqn:Hparts.
           ++ exists (Raised TypeError). split; [done|]. intros self.
              rewrite bind_run. simpl. by rewrite Hfile, Hparts.
           ++ eexists. split; [|intros self; rewrite bind_run; simpl;
                                by rewrite Hfile, Hparts]. done.
        -- eexists. split; [|intros self; rewrite bind_run; simpl; by rewrite Hfile].
           done.
      * by exists (Returned None).
      * by exists (Returned None).
      * by exists (Raised e).
    + by exists (Raised ValueError).
  - by exists (Raised e).
Qed.

(** The compiled-extension step reads the two operating systems of the
    resolver and nothing else of it. *)
Lemma adapt_compiled_extension_pure (self : Resolver) (filepath : string) :
  ∃ o, o ≠ OutOfFuel
       ∧ ∀ self' s,
           system_os self' = system_os self →
           target_os self' = target_os self →
           adapt_compiled_extension w self' filepath s = (o, s).
Proof.
  exists (adapt_compiled_extension w self filepath self).1. split.
  - unfold adapt_compiled_extension.
    repeat first
      [ done
      | match goal with
        | |- context [if ?b then _ else _] => destruct b
        | |- context [match ?o with Some _ => _ | None => _ end] => destruct o
        end ].
  - intros self' s Hos Htarget. unfold adapt_compiled_extension.
    rewrite Hos, Htarget.
    repeat first
      [ done
      | match goal with
        | |- context [if ?b then _ else _] => destruct b
        | |- context [match ?o with Some _ => _ | None => _ end] => destruct o
        end ].
Qed.

Lemma fold_package_resolves_once (fuel fuel' : nat) (filepath : string)
    (self later : Resolver) :
  extends self later →
  extends (fold_package w (process_file w fuel) filepath self).2 later →
  fold_package w (process_file w fuel') filepath later = (Returned tt, later).
Proof.
  intros Hself. unfold fold_package. rewrite !bind_run. simpl.
  destruct Hself as (_ & _ & _ & _ & -> & Hnames & Hfiles & _).
  destruct (get_distribution_name_of_package filepath) as [folder|].
  - destruct (packages_distributions self !! folder) as [[|name rest]|];
      [done| |done].
    case_bool_decide as Hnew.
    + repeat (rewrite bind_run; simpl). intros Hlater.
      rewrite bool_decide_eq_false_2; [done|].
      intros Hnot. apply Hnot.
      destruct Hlater as (_ & _ & _ & _ & _ & Hlater & _).
      apply Hlater.
      match goal with
      | |- _ ∈ included_packages_names (process_file w fuel filepath ?s).2 =>
          destruct (extends_process_file fuel filepath s)
            as (_ & _ & _ & _ & _ & Hin & _); apply Hin
      end.
      simpl. set_solver.
    + intros _. rewrite bool_decide_eq_false_2; [done|].
      intros Hnot. by apply Hnot, Hnames.
  - case_bool_decide as Hnew.
    + rewrite bind_run, add_python_file_effect. simpl. intros Hlater.
      rewrite bool_decide_eq_false_2; [done|].
      intros Hnot. apply Hnot.
      destruct Hlater as (_ & _ & _ & _ & _ & _ & Hlater & _).
      apply Hlater.
      match goal with
      | |- _ ∈ included_files_absolute_paths (process_file w fuel filepath ?s).2 =>
          destruct (extends_process_file fuel filepath s)
            as (_ & _ & _ & _ & _ & _ & Hin & _); apply Hin
      end.
      simpl. set_solver.
    + intros _. rewrite bool_decide_eq_false_2; [done|].
      intros Hnot. by apply Hnot, Hfiles.
Qed.

(** X16: an import is resolved once.  After [add_package_by_name] has
    been called for an import, with whatever outcome, a later call for
    the same import from the same file, in the resolver it left or in
    any resolver grown from it, changes nothing: it returns or raises
    without a walk. *)
Theorem add_package_by_name_resolves_once (fuel fuel' : nat)
    (package_name current_filepath : string) (self later : Resolver) :
  extends (add_package_by_name w fuel package_name current_filepath self).2 later →
  ∃ o, o ≠ OutOfFuel
       ∧ add_package_by_name w fuel' package_name current_filepath later
         = (o, later).
Proof.
  intros Hlater.
  assert (extends self later) as Hself.
  { etrans; [apply extends_add_package_by_name | exact Hlater]. }
  revert Hlater. unfold add_package_by_name, add_package_by_name_with.
  destruct (imported_package_module_filepath_pure package_name current_filepath)
    as (o1 & Ho1 & Himported).
  rewrite !bind_run, !Himported.
  destruct o1 as [[resolved|]|e|]; [| |by exists (Raised e)|done].
  - destruct (Str.contains _ resolved); [by exists (Returned tt)|].
    rewrite !bind_run. simpl. rewrite !bind_run.
    destruct (adapt_compiled_extension_pure self resolved)
      as (o2 & Ho2 & Hadapt).
    rewrite (Hadapt self self eq_refl eq_refl).
    pose proof Hself as (Hroot & Hverbose & Hos & Htarget & Hrest).
    rewrite (Hadapt later later Hos Htarget).
    destruct o2 as [[filepath|]|e|];
      [|by exists (Returned tt)|by exists (Raised e)|done].
    intros Hlater. exists (Returned tt). split; [done|].
    exact (fold_package_resolves_once fuel fuel' filepath self later Hself Hlater).
  - by exists (Returned tt).
Qed.

End ResolvesOnce.

(** ** The depth of the walk *)

Section RecursionBound.
Context `{PathLib} (w : World) (candidates : gset string).

Lemma distribution_names_lookup (self : Resolver) (folder name : string)
    (others : list string) :
  packages_distributions self !! folder = Some (name :: others) →
  name ∈ distribution_names self.
Proof.
  intros Hlookup. unfold distribution_names.
  apply elem_of_list_to_set, list_elem_of_omap.
  exists (folder, name :: others). split; [|done].
  by apply elem_of_map_to_list.
Qed.









End RecursionBound.

(** ** Where the included packages come from *)

Lemma distribution_names_entry (self : Resolver) (name : string) :
  name ∈ distribution_names self →
  ∃ folder others, packages_distributions self !! folder = Some (name :: others).
Proof.
  unfold distribution_names.
  intros ([folder names] & Hin & Hhead)%elem_of_list_to_set%list_elem_of_omap.
  apply elem_of_map_to_list in Hin.
  destruct names as [|first others]; simplify_eq/=. eauto.
Qed.

Lemma records_from_table_preorder : PreOrder records_from_table.
Proof.
  split.
  - intros self. split; [done|set_solver].
  - intros s1 s2 s3 [Hpd12 Hnames12] [Hpd23 Hnames23].
    split; [congruence|].
    unfold distribution_names in *. rewrite Hpd12 in Hnames23. set_solver.
Qed.

#[local] Existing Instance records_from_table_preorder.

(** X18: the packages a resolver includes are taken from the table of
    installed distributions read at construction: after any sequence of
    calls on a constructed resolver, every included package name is the
    first name of an entry of that table. *)
Theorem included_packages_are_installed `{PathLib} (w : World) (root : string)
    (target : option string) (verbose : bool) (self : Resolver)
    (calls : list (nat * Operation)) :
  __init__ w root target verbose = inr self →
  ∀ name,
    name ∈ included_packages_names (resolver_after w calls self) →
    ∃ folder others,
      installed_packages_distributions w !! folder = Some (name :: others).
Proof.
  intros Hinit name Hname.
  assert (records_from_table self (resolver_after w calls self)) as [_ Hfrom].
  { apply (steps_resolver_after w records_from_table).
    - intros files self0 _. split; [done|]. simpl. set_solver.
    - intros filepath self0. split; [done|]. simpl. set_solver.
    - intros folder name0 others filepath self0 Hentry. split; [done|]. simpl.
      apply distribution_names_lookup in Hentry. set_solver. }
  unfold __init__ in Hinit. case_bool_decide; [|done].
  injection Hinit as <-.
  apply Hfrom in Hname. simpl in Hname.
  apply elem_of_union in Hname as [Hname|Hname]; [set_solver|].
  by apply distribution_names_entry in Hname.
Qed.

Lemma included_packages_are_installed_witness :
  ∃ folder others,
    installed_packages_distributions Examples.venv_world !! folder
    = Some ("requests" :: others).
Proof.
  apply (included_packages_are_installed (H:=posix_pathlib) Examples.venv_world
           "/proj/main.py" (Some "linux") false Examples.venv_resolver
           [(5, ProcessFile "/proj/main.py")]).
  - reflexivity.
  - refine (bool_decide_unpack _ _). vm_compute. exact I.
Defined.

(** ** The properties on the example hosts *)

Lemma import_folder_prunes_excluded_dir_witness :
  import_folder_walk (H:=posix_pathlib) Examples.linux_world (Some ["ext"]) (Some [])
    "/proj" (Folder "proj" ([] ++ Folder "ext" [] ["__init__.py"; "fast.so"] :: [])
               ["main.py"])
    Examples.linux_resolver
  = import_folder_walk (H:=posix_pathlib) Examples.linux_world (Some ["ext"]) (Some [])
      "/proj" (Folder "proj" ([] ++ []) ["main.py"]) Examples.linux_resolver.
Proof.
  apply (import_folder_prunes_excluded_dir (H:=posix_pathlib) Examples.linux_world
           ["ext"] (Some []) "/proj" "proj" [] []
           (Folder "ext" [] ["__init__.py"; "fast.so"]) ["main.py"]
           Examples.linux_resolver).
  refine (bool_decide_unpack _ _). vm_compute. exact I.
Defined.

Lemma import_folder_skips_excluded_file_witness :
  import_folder_walk (H:=posix_pathlib) Examples.linux_world (Some []) (Some [".so"])
    "/proj/ext" (Folder "ext" [] (["__init__.py"] ++ "fast.so" :: []))
    Examples.linux_resolver
  = import_folder_walk (H:=posix_pathlib) Examples.linux_world (Some []) (Some [".so"])
      "/proj/ext" (Folder "ext" [] (["__init__.py"] ++ [])) Examples.linux_resolver.
Proof.
  apply (import_folder_skips_excluded_file (H:=posix_pathlib) Examples.linux_world
           [] [".so"] "/proj/ext" "ext" [] ["__init__.py"] [] "fast.so"
           Examples.linux_resolver).
  refine (bool_decide_unpack _ _). vm_compute. exact I.
Defined.

Lemma adapt_compiled_extension_returns_witness :
  ∃ adapted,
    adapt_compiled_extension (H:=nt_pathlib) Examples.windows_world
      Examples.windows_resolver "C:\proj\ext\fast.pyd" Examples.windows_resolver
    = (Returned adapted, Examples.windows_resolver).
Proof.
  apply (adapt_compiled_extension_returns (H:=nt_pathlib) Examples.windows_world
           Examples.windows_resolver "C:\proj\ext\fast.pyd"
           Examples.windows_resolver).
  reflexivity.
Defined.

Lemma process_file_aborts_on_import_error_witness :
  process_file (H:=posix_pathlib) Scenarios.cyclic_world 3 "/proj/job.py"
    Scenarios.cyclic_resolver
  = (Raised HostError,
     set_walk_log (walk_log Scenarios.cyclic_resolver ++ [Walked "/proj/job.py"])
       Scenarios.cyclic_resolver).
Proof.
  apply (process_file_aborts_on_import_error (H:=posix_pathlib)
           Scenarios.cyclic_world 2 "/proj/job.py" [PlainNode]
           [ImportNode ["main"]] "broken" ["helpers"] HostError
           Scenarios.cyclic_resolver).
  - reflexivity.
  - reflexivity.
  - reflexivity.
  - by repeat constructor.
  - reflexivity.
Defined.

Lemma add_package_by_name_skips_unresolved_witness :
  add_package_by_name (H:=posix_pathlib) Examples.linux_world 3 "missing"
    "/proj/main.py" Examples.linux_resolver
  = (Returned tt, Examples.linux_resolver).
Proof.
  apply (add_package_by_name_skips_unresolved (H:=posix_pathlib)
           Examples.linux_world 3 "missing" "/proj/main.py" "."
           Examples.linux_resolver).
  - reflexivity.
  - reflexivity.
  - left. reflexivity.
Defined.

Lemma add_package_by_name_relpath_error_witness :
  add_package_by_name (H:=nt_pathlib) Examples.windows_world 3 "missing"
    "D:\lib\tool.py" Examples.windows_resolver
  = (Raised ValueError, Examples.windows_resolver).
Proof.
  apply (add_package_by_name_relpath_error (H:=nt_pathlib)
           Examples.windows_world 3 "missing" "D:\lib\tool.py"
           Examples.windows_resolver).
  - reflexivity.
  - reflexivity.
Defined.

Lemma distribution_entry_is_not_included_witness :
  ∃ self',
    add_package_by_name (H:=posix_pathlib) Examples.venv_world 3 "requests.api"
      "/proj/main.py" Examples.venv_resolver
    = (Returned tt, self')
    ∧ included_files_absolute_paths self'
      = included_files_absolute_paths Examples.venv_resolver
    ∧ included_packages_names self'
      = {[ "requests" ]} ∪ included_packages_names Examples.venv_resolver
    ∧ walk_log self'
      = walk_log Examples.venv_resolver
        ++ [DistributionEntry "requests"
              "/venv/lib/python3.8/site-packages/requests/api.py";
            Walked "/venv/lib/python3.8/site-packages/requests/api.py"].
Proof.
  apply (distribution_entry_is_not_included (H:=posix_pathlib) Examples.venv_world
           2 "requests.api" "/proj/main.py"
           "/venv/lib/python3.8/site-packages/requests/api.py" "requests" []
           Examples.venv_resolver).
  - exists "/venv/lib/python3.8/site-packages/requests/api.py", "requests", [].
    repeat split; reflexivity.
  - apply not_elem_of_empty.
  - reflexivity.
  - reflexivity.
  - reflexivity.
  - constructor.
Defined.

Lemma add_package_by_name_missing_file_witness :
  (∃ self',
     add_package_by_name (H:=posix_pathlib) Scenarios.cyclic_world 3 "gone"
       "/proj/main.py" Scenarios.cyclic_resolver
     = (Raised (FilepathDoesNotExist "/proj/gone.py"), self')
     ∧ "/proj/gone.py" ∈ included_files_absolute_paths self')
  ∧ (∃ self',
       add_package_by_name (H:=posix_pathlib) Scenarios.cyclic_world 3 "stale"
         "/proj/main.py" Scenarios.cyclic_resolver
       = (Raised (FilepathDoesNotExist
                    "/venv/lib/python3.8/site-packages/stale/__init__.py"), self')
       ∧ "stale" ∈ included_packages_names self').
Proof.
  split.
  - refine (proj1 (add_package_by_name_missing_file (H:=posix_pathlib)
                     Scenarios.cyclic_world 2 "gone" "/proj/main.py"
                     "/proj/gone.py" Scenarios.cyclic_resolver _) _ _ _).
    + reflexivity.
    + exists "/proj/gone.py". repeat split; reflexivity.
    + reflexivity.
    + refine (bool_decide_unpack _ _). vm_compute. exact I.
  - refine (proj2 (add_package_by_name_missing_file (H:=posix_pathlib)
                     Scenarios.cyclic_world 2 "stale" "/proj/main.py"
                     "/venv/lib/python3.8/site-packages/stale/__init__.py"
                     Scenarios.cyclic_resolver _) "stale" _ _).
    + reflexivity.
    + exists "/venv/lib/python3.8/site-packages/stale/__init__.py", "stale", [].
      repeat split; reflexivity.
    + apply not_elem_of_empty.
Defined.

Lemma add_package_by_name_resolves_once_witness :
  ∃ o, o ≠ OutOfFuel
       ∧ add_package_by_name (H:=posix_pathlib) Scenarios.cyclic_world 0 "helpers"
           "/proj/main.py"
           (add_package_by_name (H:=posix_pathlib) Scenarios.cyclic_world 4
              "helpers" "/proj/main.py" Scenarios.cyclic_resolver).2
         = (o, (add_package_by_name (H:=posix_pathlib) Scenarios.cyclic_world 4
                  "helpers" "/proj/main.py" Scenarios.cyclic_resolver).2).
Proof.
  apply (add_package_by_name_resolves_once (H:=posix_pathlib)
           Scenarios.cyclic_world 4 0 "helpers" "/proj/main.py"
           Scenarios.cyclic_resolver).
  reflexivity.
Defined.



